(** * SwasthyaMitra: the doctor's calendar and the patient roster

    A shallow embedding of the pure logic of [app/(doctor)/calendar.tsx]:
    the month grid ([getDaysInMonth], [getFirstDayOfMonth], [formatDate],
    [renderCalendar]), the per-day status aggregation
    ([getAppointmentsForDate], [hasAppointment], [getAppointmentStatus]),
    the list of upcoming appointments, and the grouping of prescriptions by
    patient in [fetchPatientsWithPrescriptions].

    JavaScript numbers are modelled as [option Z], [None] being [NaN]; every
    number the code handles is an integer far below 2^53, where the double
    arithmetic of the language is exact. *)

From Stdlib Require Import ZArith Lia.
From stdpp Require Import base option list strings pretty gmap sorting.

(** ** The ECMAScript [Date] abstract operations

    The source only calls the built-in [Date]; its behaviour is the one of
    the language specification (ECMA-262, "Time Values and Time Range" and
    the sections after it), transcribed here over [Z]. *)

Module JsDate.
Local Open Scope Z_scope.

Definition msPerDay : Z := 86400000.
Definition msPerHour : Z := 3600000.
Definition msPerMinute : Z := 60000.
Definition msPerSecond : Z := 1000.

Definition Day (t : Z) : Z := t / msPerDay.
Definition TimeWithinDay (t : Z) : Z := t mod msPerDay.

Definition DaysInYear (y : Z) : Z :=
  if negb (y mod 4 =? 0) then 365
  else if negb (y mod 100 =? 0) then 366
  else if negb (y mod 400 =? 0) then 365
  else 366.

Definition DayFromYear (y : Z) : Z :=
  365 * (y - 1970) + (y - 1969) / 4 - (y - 1901) / 100 + (y - 1601) / 400.

Definition TimeFromYear (y : Z) : Z := msPerDay * DayFromYear y.

(** "The largest integer y (closest to positive infinity) such that
    TimeFromYear(y) <= t": an estimate from the mean length of a year, off
    by at most one, then corrected ([YearFromTime_spec] proves it is that
    integer). *)
Definition YearFromTime (t : Z) : Z :=
  let d := Day t in
  let y := 1970 + (400 * d) / 146097 in
  if d <? DayFromYear y then y - 1
  else if DayFromYear (y + 1) <=? d then y + 1
  else y.

Definition InLeapYear (t : Z) : Z :=
  if DaysInYear (YearFromTime t) =? 366 then 1 else 0.

Definition DayWithinYear (t : Z) : Z := Day t - DayFromYear (YearFromTime t).

Definition MonthFromTime (t : Z) : Z :=
  let d := DayWithinYear t in
  let leap := InLeapYear t in
  if d <? 31 then 0
  else if d <? 59 + leap then 1
  else if d <? 90 + leap then 2
  else if d <? 120 + leap then 3
  else if d <? 151 + leap then 4
  else if d <? 181 + leap then 5
  else if d <? 212 + leap then 6
  else if d <? 243 + leap then 7
  else if d <? 273 + leap then 8
  else if d <? 304 + leap then 9
  else if d <? 334 + leap then 10
  else 11.

Definition DateFromTime (t : Z) : Z :=
  let d := DayWithinYear t in
  let leap := InLeapYear t in
  match MonthFromTime t with
  | 0 => d + 1
  | 1 => d - 30
  | 2 => d - 58 - leap
  | 3 => d - 89 - leap
  | 4 => d - 119 - leap
  | 5 => d - 150 - leap
  | 6 => d - 180 - leap
  | 7 => d - 211 - leap
  | 8 => d - 242 - leap
  | 9 => d - 272 - leap
  | 10 => d - 303 - leap
  | _ => d - 333 - leap
  end.

Definition WeekDay (t : Z) : Z := (Day t + 4) mod 7.

Definition MakeTime (hour min sec ms : Z) : Z :=
  hour * msPerHour + min * msPerMinute + sec * msPerSecond + ms.

(** The day number of the first day of month [mn] (0..11) of a year that
    has [leap] = 1 or 0 extra days. *)
Definition DayOfMonthStart (mn leap : Z) : Z :=
  match mn with
  | 0 => 0
  | 1 => 31
  | 2 => 59 + leap
  | 3 => 90 + leap
  | 4 => 120 + leap
  | 5 => 151 + leap
  | 6 => 181 + leap
  | 7 => 212 + leap
  | 8 => 243 + leap
  | 9 => 273 + leap
  | 10 => 304 + leap
  | _ => 334 + leap
  end.

(** MakeDay: "find a time value t such that YearFromTime(t) is ym,
    MonthFromTime(t) is mn and DateFromTime(t) is 1; return
    Day(t) + dt - 1". *)
Definition MakeDay (year month date : Z) : Z :=
  let ym := year + month / 12 in
  let mn := month mod 12 in
  let leap := if DaysInYear ym =? 366 then 1 else 0 in
  DayFromYear ym + DayOfMonthStart mn leap + date - 1.

Definition MakeDate (day time : Z) : Z := day * msPerDay + time.

Definition TimeClip (time : Z) : option Z :=
  if 8640000000000000 <? Z.abs time then None else Some time.

(** MakeFullYear: the two-digit years of the constructor. *)
Definition MakeFullYear (y : Z) : Z :=
  if (0 <=? y) && (y <=? 99) then 1900 + y else y.

(** A Date object: its [[DateValue]] slot, a time value or NaN. *)
Record Date : Type := mkDate { DateValue : option Z }.

Section LocalTime.
(** The offset of the host's time zone: LocalTZA(t, isUTC). *)
Variable LocalTZA : Z -> bool -> Z.

Definition LocalTime (t : Z) : Z := t + LocalTZA t true.
Definition UTC (t : Z) : Z := t - LocalTZA t false.

(** [new Date(year, month, date)] *)
Definition newDate (year month date : option Z) : Date :=
  mkDate (y ← year; m ← month; dt ← date;
          let yr := MakeFullYear y in
          let finalDate := MakeDate (MakeDay yr m dt) (MakeTime 0 0 0 0) in
          TimeClip (UTC finalDate)).

Definition getFullYear (d : Date) : option Z :=
  t ← DateValue d; Some (YearFromTime (LocalTime t)).
Definition getMonth (d : Date) : option Z :=
  t ← DateValue d; Some (MonthFromTime (LocalTime t)).
Definition getDate (d : Date) : option Z :=
  t ← DateValue d; Some (DateFromTime (LocalTime t)).
Definition getDay (d : Date) : option Z :=
  t ← DateValue d; Some (WeekDay (LocalTime t)).
Definition getTime (d : Date) : option Z := DateValue d.
End LocalTime.

End JsDate.

(** ** The Gregorian calendar

    The reference the claims about the month grid are measured against:
    the leap-year rule, the lengths of the months, and the day of the week
    by Sakamoto's formula.  Months are zero-based, as in the source; the
    day of the week is 0 for Sunday. *)

Module Gregorian.
Local Open Scope Z_scope.

Definition isLeapYear (y : Z) : bool :=
  (y mod 4 =? 0) && (negb (y mod 100 =? 0) || (y mod 400 =? 0)).

Definition daysInMonth (y m : Z) : Z :=
  match m with
  | 1 => if isLeapYear y then 29 else 28
  | 3 | 5 | 8 | 10 => 30
  | _ => 31
  end.

Definition dayOfWeek (y m d : Z) : Z :=
  let offset :=
    match m with
    | 0 => 0 | 1 => 3 | 2 => 2 | 3 => 5 | 4 => 0 | 5 => 3
    | 6 => 5 | 7 => 1 | 8 => 4 | 9 => 6 | 10 => 2 | _ => 4
    end in
  let y' := if m <? 2 then y - 1 else y in
  (y' + y' / 4 - y' / 100 + y' / 400 + offset + d) mod 7.

End Gregorian.

(** The assumptions on the time zone of the host: an offset is less than a
    day, and local midnight of a day, taken to UTC and back, is a time of
    that same local day (it is the same time wherever the offset is fixed,
    and the hour after it where a daylight-saving jump removes it). *)
Definition WellBehavedZone (LocalTZA : Z → bool → Z) : Prop :=
  (∀ t b, (Z.abs (LocalTZA t b) < JsDate.msPerDay)%Z) ∧
  (∀ t, (t mod JsDate.msPerDay = 0)%Z →
        JsDate.Day (JsDate.LocalTime LocalTZA (JsDate.UTC LocalTZA t)) = JsDate.Day t).

(** ** JavaScript strings and numbers *)

Module Js.

(** [Number::toString]: the decimal digits of an integer, [NaN] for NaN. *)
Definition Number_toString (n : option Z) : string :=
  match n with
  | None => "NaN"
  | Some z => pretty z
  end.

(** [n] characters of [padString] repeated; [cur] is what is left of the
    copy being written. *)
Fixpoint fillString (n : nat) (padString cur : string) : string :=
  match n with
  | O => EmptyString
  | S n' =>
      match cur with
      | String c rest => String c (fillString n' padString rest)
      | EmptyString =>
          match padString with
          | String c rest => String c (fillString n' padString rest)
          | EmptyString => EmptyString
          end
      end
  end.

(** [String.prototype.padStart(targetLength, padString)] *)
Definition padStart (s : string) (targetLength : nat) (padString : string) : string :=
  let len := String.length s in
  if (targetLength <=? len)%nat then s
  else fillString (targetLength - len) padString padString +:+ s.

(** [v === s] for a value that is a string or [undefined]. *)
Definition strictEq (v : option string) (s : string) : bool :=
  bool_decide (v = Some s).

(** [a <= b] on numbers: false as soon as one side is NaN. *)
Definition le (a b : option Z) : bool :=
  match a, b with
  | Some x, Some y => (x <=? y)%Z
  | _, _ => false
  end.

(** [for (let i = start; i < bound; i++) { days.push(body(i)) }]: the body
    runs for start, start + 1, ..., bound - 1, and not at all when [bound]
    is NaN or not above [start]. *)
Definition forLt {A : Type} (start : Z) (bound : option Z) (body : Z → A)
    (days : list A) : list A :=
  match bound with
  | None => days
  | Some n => fold_left (λ acc i, acc ++ [body i]) (seqZ start (n - start)) days
  end.

(** [for (let i = start; i <= bound; i++) { days.push(body(i)) }] *)
Definition forLe {A : Type} (start : Z) (bound : option Z) (body : Z → A)
    (days : list A) : list A :=
  match bound with
  | None => days
  | Some n => fold_left (λ acc i, acc ++ [body i]) (seqZ start (n - start + 1)) days
  end.

End Js.

(** ** The calendar screen *)

Module Calendar.
Import JsDate.

(** [interface Appointment].  The TypeScript type of [status] is a union of
    four strings, but the records come unchecked from the backend:
    [apt_status] is any string, or [None] when the field is absent. *)
Record Appointment : Type := mkAppointment {
  apt_id : string;
  apt_date : string;
  apt_patientName : string;
  apt_time : string;
  apt_condition : string;
  apt_status : option string;
  apt_patient_id : string;
  apt_doctor_id : string;
  apt_symptoms : option string;
  apt_notes : option string;
  apt_type : option string;
  apt_appointment_type : string;
  apt_priority : string
}.

(** What one iteration of the loops of [renderCalendar] pushes on [days]:
    the padding [View] with key [empty-i], or the [TouchableOpacity] of a
    day, given by the constants of the iteration it is built from. *)
Inductive DayElement : Type :=
| EmptyCell (i : Z)
| DayCell (day : Z) (dateString : string) (hasApt : bool)
    (appointmentStatus : option string) (isSelected : bool).

Section CalendarScreen.
Variable LocalTZA : Z → bool → Z.

(** The state of the component. *)
Variable currentDate : Date.
Variable selectedDate : option string.
Variable appointments : list Appointment.

Definition getDaysInMonth (date : Date) : option Z :=
  getDate LocalTZA
    (newDate LocalTZA (getFullYear LocalTZA date)
       ((λ m, m + 1)%Z <$> getMonth LocalTZA date) (Some 0%Z)).

Definition getFirstDayOfMonth (date : Date) : option Z :=
  getDay LocalTZA
    (newDate LocalTZA (getFullYear LocalTZA date) (getMonth LocalTZA date)
       (Some 1%Z)).

Definition formatDate (year month day : option Z) : string :=
  Js.Number_toString year +:+ "-" +:+
  Js.padStart (Js.Number_toString ((λ m, m + 1)%Z <$> month)) 2 "0" +:+ "-" +:+
  Js.padStart (Js.Number_toString day) 2 "0".

Definition getAppointmentsForDate (dateString : string) : list Appointment :=
  filter (λ apt, apt_date apt = dateString) appointments.

Definition hasAppointment (dateString : string) : bool :=
  (0 <? length (getAppointmentsForDate dateString))%nat.

(** The result is [None] for [null]. *)
Definition getAppointmentStatus (dateString : string) : option string :=
  let dayAppointments := getAppointmentsForDate dateString in
  if (length dayAppointments =? 0)%nat then None
  else
    let hasCompleted :=
      existsb (λ apt, Js.strictEq (apt_status apt) "completed") dayAppointments in
    let hasScheduled :=
      existsb (λ apt, Js.strictEq (apt_status apt) "scheduled"
                      || Js.strictEq (apt_status apt) "confirmed") dayAppointments in
    if hasCompleted && hasScheduled then Some "mixed"
    else if hasCompleted then Some "completed"
    else if hasScheduled then Some "scheduled"
    else Some "cancelled".

Definition getAppointmentDotColor (status : option string) : string :=
  match status with
  | Some "completed" => "#10B981"
  | Some "scheduled" => "#F59E0B"
  | Some "mixed" => "#8B5CF6"
  | Some "cancelled" => "#EF4444"
  | _ => "#EF4444"
  end.

(** The array [days] that [renderCalendar] builds and wraps in the
    container of the grid. *)
Definition renderCalendar : list DayElement :=
  let daysInMonth := getDaysInMonth currentDate in
  let firstDayOfMonth := getFirstDayOfMonth currentDate in
  let days := [] in
  let days := Js.forLt 0 firstDayOfMonth (λ i, EmptyCell i) days in
  let days :=
    Js.forLe 1 daysInMonth
      (λ day,
         let dateString :=
           formatDate (getFullYear LocalTZA currentDate)
             (getMonth LocalTZA currentDate) (Some day) in
         let hasApt := hasAppointment dateString in
         let appointmentStatus := getAppointmentStatus dateString in
         let isSelected := bool_decide (selectedDate = Some dateString) in
         DayCell day dateString hasApt appointmentStatus isSelected)
      days in
  days.

(** The dot under the number of a day: drawn when the day has an
    appointment and is not the selected one, in the colour of its status. *)
Definition appointmentDot (e : DayElement) : option string :=
  match e with
  | EmptyCell _ => None
  | DayCell _ _ hasApt appointmentStatus isSelected =>
      if hasApt && negb isSelected
      then Some (getAppointmentDotColor appointmentStatus)
      else None
  end.

(** The built-in parser behind [new Date(string)], the clock behind
    [new Date()], and [Date.prototype.toDateString]. *)
Variable Date_parse : string → option Z.
Variable Date_now : Z.
Variable toDateString : Date → string.

(** [new Date(new Date().toDateString())] *)
Definition startOfToday : Date :=
  mkDate (Date_parse (toDateString (mkDate (Some Date_now)))).

(** [a >= b] on two Date objects compares their time values. *)
Definition Date_ge (a b : Date) : bool := Js.le (getTime b) (getTime a).

Definition upcomingAppointments : list Appointment :=
  take 10
    (filter (λ apt, Date_ge (mkDate (Date_parse (apt_date apt +:+ "T00:00:00")))
                      startOfToday = true)
       appointments).
End CalendarScreen.

End Calendar.

(** ** The patient roster *)

Module Patients.

Record HistoryEntry : Type := mkHistoryEntry {
  he_id : string;
  he_date : string;
  he_type : string;
  he_description : string;
  he_diagnosis : option string;
  he_prescription : option (list string);
  he_notes : option string
}.

Record Patient : Type := mkPatient {
  pt_id : string;
  pt_name : string;
  pt_age : Z;
  pt_condition : string;
  pt_lastVisit : string;
  pt_nextAppointment : option string;
  pt_avatar : string;
  pt_history : list HistoryEntry
}.

(** The joined [users] row of a prescription. *)
Record PatientData : Type := mkPatientData {
  pd_name : string;
  pd_avatar : option string
}.

(** A row of the [prescriptions] query; [None] is SQL [null]. *)
Record Prescription : Type := mkPrescription {
  rx_id : string;
  rx_patient_id : string;
  rx_created_at : string;
  rx_medicines : option (list string);
  rx_instructions : option string;
  rx_status : option string;
  rx_users : option PatientData
}.

(** [s || d] on a string that may be [null]: the empty string is falsy. *)
Definition orString (s : option string) (d : string) : string :=
  match s with
  | Some v => if bool_decide (v = "") then d else v
  | None => d
  end.

(** The property names every object literal inherits from
    [Object.prototype]: looked up on [patientMap], they give a function or
    the prototype itself, not [undefined]. *)
Definition ObjectPrototype_properties : list string :=
  ["constructor"; "__defineGetter__"; "__defineSetter__"; "hasOwnProperty";
   "__lookupGetter__"; "__lookupSetter__"; "isPrototypeOf";
   "propertyIsEnumerable"; "toString"; "valueOf"; "__proto__";
   "toLocaleString"].

Inductive Property : Type :=
| OwnPatient (p : Patient)
| Inherited
| Undefined.

(** [patientMap[key]] *)
Definition getProperty (patientMap : gmap string Patient) (key : string) : Property :=
  match patientMap !! key with
  | Some p => OwnPatient p
  | None => if bool_decide (key ∈ ObjectPrototype_properties) then Inherited else Undefined
  end.

Definition historyEntryOf (prescription : Prescription) : HistoryEntry :=
  {| he_id := rx_id prescription;
     he_date := rx_created_at prescription;
     he_type := "Prescription";
     he_description := orString (rx_instructions prescription) "";
     he_diagnosis := Some "";
     he_prescription := Some (default [] (rx_medicines prescription));
     he_notes := Some "" |}.

(** The callback of [prescriptions.forEach]; [None] when it throws a
    TypeError (the [users] row is [null], or [patientMap[patientId]] is an
    inherited property, which has no [history]). *)
Definition addPrescription (patientMap : gmap string Patient)
    (prescription : Prescription) : option (gmap string Patient) :=
  let patientId := rx_patient_id prescription in
  patientMap ←
    match getProperty patientMap patientId with
    | Undefined =>
        patientData ← rx_users prescription;
        Some (<[patientId :=
                 {| pt_id := patientId;
                    pt_name := pd_name patientData;
                    pt_age := 20;
                    pt_condition := "";
                    pt_lastVisit := rx_created_at prescription;
                    pt_nextAppointment := None;
                    pt_avatar :=
                      orString (pd_avatar patientData)
                        "https://images.pexels.com/photos/1681010/pexels-photo-1681010.jpeg";
                    pt_history := [] |}]> patientMap)
    | _ => Some patientMap
    end;
  match getProperty patientMap patientId with
  | OwnPatient patient =>
      Some (<[patientId :=
               {| pt_id := pt_id patient;
                  pt_name := pt_name patient;
                  pt_age := pt_age patient;
                  pt_condition := pt_condition patient;
                  pt_lastVisit := pt_lastVisit patient;
                  pt_nextAppointment := pt_nextAppointment patient;
                  pt_avatar := pt_avatar patient;
                  pt_history := pt_history patient ++ [historyEntryOf prescription] |}]>
              patientMap)
  | _ => None
  end.

(** [prescriptions.forEach(...)] from the empty [patientMap]. *)
Definition groupByPatient (prescriptions : list Prescription)
    : option (gmap string Patient) :=
  foldl (λ acc prescription, patientMap ← acc; addPrescription patientMap prescription)
    (Some ∅) prescriptions.

(** [Array.prototype.sort(comparefn)]: a stable sort; a comparison that
    returns NaN counts as 0. *)
Definition sortsBefore {A : Type} (comparefn : A → A → option Z) (x y : A) : bool :=
  match comparefn x y with
  | Some v => (v <? 0)%Z
  | None => false
  end.

Fixpoint sortInsert {A : Type} (comparefn : A → A → option Z) (x : A) (l : list A)
    : list A :=
  match l with
  | [] => [x]
  | y :: l' =>
      if sortsBefore comparefn y x then y :: sortInsert comparefn x l'
      else x :: y :: l'
  end.

Definition sort {A : Type} (comparefn : A → A → option Z) (l : list A) : list A :=
  foldr (sortInsert comparefn) [] l.

Inductive Response : Type :=
| ResponseError
| ResponseData (prescriptions : list Prescription).

Record ScreenState : Type := mkScreenState {
  patients : list Patient;
  loading : bool
}.

Section PatientsScreen.
(** The built-in parser behind [new Date(string)]. *)
Variable Date_parse : string → option Z.

(** [(a, b) => new Date(b.date).getTime() - new Date(a.date).getTime()] *)
Definition byDateDescending (a b : HistoryEntry) : option Z :=
  tb ← Date_parse (he_date b); ta ← Date_parse (he_date a); Some (tb - ta)%Z.

(** [Object.values(patientMap).map(...)]: the values of the map, each
    with its history sorted.  A [gmap] lists its values in an order of its
    own, not in the order of the properties of the object; nothing below
    depends on the order of the patients. *)
Definition patientsArrayOf (patientMap : gmap string Patient) : list Patient :=
  (λ patient,
     {| pt_id := pt_id patient;
        pt_name := pt_name patient;
        pt_age := pt_age patient;
        pt_condition := pt_condition patient;
        pt_lastVisit := pt_lastVisit patient;
        pt_nextAppointment := pt_nextAppointment patient;
        pt_avatar := pt_avatar patient;
        pt_history := sort byDateDescending (pt_history patient) |})
  <$> (map_to_list patientMap).*2.

(** The screen after [fetchPatientsWithPrescriptions] has run on the
    response of the query: the new roster, or the old one when the query
    failed or the grouping threw. *)
Definition fetchPatientsWithPrescriptions (response : Response)
    (st : ScreenState) : ScreenState :=
  match response with
  | ResponseError => {| patients := patients st; loading := false |}
  | ResponseData prescriptions =>
      match groupByPatient prescriptions with
      | Some patientMap =>
          {| patients := patientsArrayOf patientMap; loading := false |}
      | None => {| patients := patients st; loading := false |}
      end
  end.
End PatientsScreen.

End Patients.

(** ** The words of the specification

    The data model and the formats that the specification gives, to compare
    the code with, and the predicates the properties are stated with. *)

Module Spec.
Import Calendar.

(** CalendarCell: [Empty], or [Day] with its number, whether it has an
    appointment, and its composite status ([None] for [none]). *)
Inductive CalendarCell : Type :=
| Empty
| Day (dayNumber : Z) (hasAppointment : bool) (compositeStatus : option string).

Definition cellOf (e : DayElement) : CalendarCell :=
  match e with
  | EmptyCell _ => Empty
  | DayCell day _ hasApt appointmentStatus _ => Day day hasApt appointmentStatus
  end.

(** The composite statuses: completed, scheduled, mixed, cancelled, none. *)
Definition CompositeStatus (s : option string) : Prop :=
  s = Some "completed" ∨ s = Some "scheduled" ∨ s = Some "mixed" ∨
  s = Some "cancelled" ∨ s = None.

(** The statuses of an appointment that the aggregation tells apart. *)
Definition isCompleted (apt : Appointment) : Prop :=
  apt_status apt = Some "completed".
Definition isPending (apt : Appointment) : Prop :=
  apt_status apt = Some "scheduled" ∨ apt_status apt = Some "confirmed".

(** A status outside the four of the data model, or no status at all. *)
Definition unrecognized (status : option string) : Prop :=
  status ∉ [Some "scheduled"; Some "confirmed"; Some "completed"; Some "cancelled"].

Definition withStatus (apt : Appointment) (status : option string) : Appointment :=
  {| apt_id := apt_id apt; apt_date := apt_date apt;
     apt_patientName := apt_patientName apt; apt_time := apt_time apt;
     apt_condition := apt_condition apt; apt_status := status;
     apt_patient_id := apt_patient_id apt; apt_doctor_id := apt_doctor_id apt;
     apt_symptoms := apt_symptoms apt; apt_notes := apt_notes apt;
     apt_type := apt_type apt; apt_appointment_type := apt_appointment_type apt;
     apt_priority := apt_priority apt |}.

(** An unrecognized status read as [cancelled]. *)
Definition collapse (apt : Appointment) : Appointment :=
  if decide (unrecognized (apt_status apt)) then withStatus apt (Some "cancelled")
  else apt.

(** The number a cell of the grid shows, if it is the cell of a day. *)
Definition dayNumberOf (e : DayElement) : option Z :=
  match e with
  | EmptyCell _ => None
  | DayCell day _ _ _ _ => Some day
  end.

(** The date key YYYY-MM-DD of day [d] of the zero-based month [m] of year
    [y], digit by digit. *)
Definition digit (n : Z) : Ascii.ascii := Ascii.ascii_of_nat (48 + Z.to_nat n).
Definition twoDigits (n : Z) : string :=
  String (digit (n / 10)) (String (digit (n mod 10)) "").
Definition fourDigits (n : Z) : string :=
  String (digit (n / 1000)) (String (digit (n / 100 mod 10)) (twoDigits (n mod 100))).
Definition dateKey (y m d : Z) : string :=
  fourDigits y +:+ "-" +:+ twoDigits (m + 1) +:+ "-" +:+ twoDigits d.

(** History entry [a] is dated at or after entry [b]: what two entries in
    a row satisfy in a history sorted by descending date. *)
Definition notBefore (Date_parse : string → option Z)
    (a b : Patients.HistoryEntry) : Prop :=
  ∃ ta tb, Date_parse (Patients.he_date a) = Some ta ∧
           Date_parse (Patients.he_date b) = Some tb ∧ (tb <= ta)%Z.

(** A history entry whose date the parser reads. *)
Definition dated (Date_parse : string → option Z) (e : Patients.HistoryEntry) : Prop :=
  is_Some (Date_parse (Patients.he_date e)).

(** What [patientMap] holds once the prescriptions [l] have gone through
    the loop: an entry for each patient of [l] and for no one else, under
    the id of the patient, with one history entry for each prescription of
    the patient, in the order of [l]. *)
Definition grouped (l : list Patients.Prescription)
    (patientMap : gmap string Patients.Patient) : Prop :=
  ∀ patientId,
    match patientMap !! patientId with
    | Some patient =>
        Patients.pt_id patient = patientId ∧
        Patients.pt_history patient
        = Patients.historyEntryOf
            <$> filter (λ rx, Patients.rx_patient_id rx = patientId) l ∧
        patientId ∈ Patients.rx_patient_id <$> l
    | None => patientId ∉ Patients.rx_patient_id <$> l
    end.

(** A prescription that the loop takes without throwing. *)
Definition wellFormed (rx : Patients.Prescription) : Prop :=
  is_Some (Patients.rx_users rx) ∧
  Patients.rx_patient_id rx ∉ Patients.ObjectPrototype_properties.

End Spec.

(** ** Sample data *)

Module Samples.
Import Calendar Patients.

Definition appointment (id date : string) (status : option string) : Appointment :=
  mkAppointment id date "Asha Rao" "10:30 AM" "General Consultation" status
    "patient-1" "doctor-1" None None None "video" "medium".

(** Two appointments on 15 September 2025, one the day after. *)
Definition september : list Appointment :=
  [ appointment "a1" "2025-09-15" (Some "completed");
    appointment "a2" "2025-09-15" (Some "scheduled");
    appointment "a3" "2025-09-16" (Some "cancelled") ].

(** The same day in another order, for other patients, at other times. *)
Definition septemberShuffled : list Appointment :=
  [ mkAppointment "b7" "2025-09-15" "Ravi Kumar" "4:00 PM" "Fever"
      (Some "scheduled") "patient-2" "doctor-1" (Some "Fever") None None
      "in-person" "high";
    appointment "b9" "2025-09-20" None;
    mkAppointment "b8" "2025-09-15" "Meera Shah" "9:15 AM" "Review"
      (Some "completed") "patient-3" "doctor-1" None (Some "follow-up") None
      "video" "low" ].

(** A day whose appointments carry a status the data model does not have,
    and none at all. *)
Definition strangeDay : list Appointment :=
  [ appointment "c1" "2025-09-15" (Some "no-show");
    appointment "c2" "2025-09-15" None ].

(** Indian Standard Time: UTC+05:30 all year. *)
Definition IST : Z → bool → Z := λ _ _, 19800000%Z.

(** A zone at UTC-03:00 that moves its clocks to UTC-02:00 at local midnight
    of 2024-02-10: the hour from 00:00 to 01:00 of that day does not exist.
    A local time is read with the offset before the jump until the clocks
    have passed the gap. *)
Definition jumpAtMidnight : Z → bool → Z :=
  λ t isUTC,
    if isUTC
    then if (t <? 1707534000000)%Z then (-10800000)%Z else (-7200000)%Z
    else if (t <? 1707526800000)%Z then (-10800000)%Z else (-7200000)%Z.

(** 2024-02-10T12:30:00Z and 2024-02-25T03:00:00Z. *)
Definition february2024 : JsDate.Date := JsDate.mkDate (Some 1707568200000%Z).
Definition lateFebruary2024 : JsDate.Date := JsDate.mkDate (Some 1708830000000%Z).

(** 2025-09-15T06:00:00Z. *)
Definition september2025 : JsDate.Date := JsDate.mkDate (Some 1757916000000%Z).

Definition prescription (id patient created : string) : Prescription :=
  mkPrescription id patient created (Some ["Paracetamol 500mg"])
    (Some "After meals") (Some "active")
    (Some (mkPatientData "Asha Rao" None)).

(** Three prescriptions of two patients, the oldest first. *)
Definition prescriptions : list Prescription :=
  [ prescription "rx1" "patient-1" "2025-09-01T10:00:00Z";
    prescription "rx2" "patient-2" "2025-09-03T10:00:00Z";
    prescription "rx3" "patient-1" "2025-09-05T10:00:00Z" ].

(** The time values of the dates of [prescriptions]. *)
Definition parse (s : string) : option Z :=
  if bool_decide (s = "2025-09-01T10:00:00Z") then Some 1756720800000%Z
  else if bool_decide (s = "2025-09-03T10:00:00Z") then Some 1756893600000%Z
  else if bool_decide (s = "2025-09-05T10:00:00Z") then Some 1757066400000%Z
  else None.

Definition emptyScreen : ScreenState := mkScreenState [] true.

End Samples.

(** ** More of the calendar screen: navigation, selection, badges *)

Module CalendarNav.
Import JsDate Calendar.

Section LocalTime.
Variable LocalTZA : Z → bool → Z.

(** [new Date(value)] on a Date object: a copy of its time value. *)
Definition copyDate (value : Date) : Date :=
  mkDate (t ← DateValue value; TimeClip t).

(** [Date.prototype.setMonth(month)]: the month of the local date is
    replaced, its day and its time of day are kept; a day the new month does
    not have runs over into the next month. *)
Definition setMonth (d : Date) (month : option Z) : Date :=
  mkDate (t ← DateValue d; m ← month;
          let t := LocalTime LocalTZA t in
          let dt := DateFromTime t in
          let newDate := MakeDate (MakeDay (YearFromTime t) m dt) (TimeWithinDay t) in
          TimeClip (UTC LocalTZA newDate)).

(** ['prev' | 'next'] *)
Inductive Direction : Type := dir_prev | dir_next.

(** The two pieces of state that [navigateMonth] sets. *)
Record NavState : Type := mkNavState {
  currentDate : Date;
  selectedDate : option string
}.

Definition navigateMonth (direction : Direction) (st : NavState) : NavState :=
  {| currentDate :=
       let prev := currentDate st in
       let newDate := copyDate prev in
       match direction with
       | dir_prev => setMonth newDate ((λ m, m - 1)%Z <$> getMonth LocalTZA prev)
       | dir_next => setMonth newDate ((λ m, m + 1)%Z <$> getMonth LocalTZA prev)
       end;
     selectedDate := None |}.
End LocalTime.

(** [selectedDate ? getAppointmentsForDate(selectedDate) : []]; the empty
    string is falsy. *)
Definition selectedAppointments (selectedDate : option string)
    (appointments : list Appointment) : list Appointment :=
  match selectedDate with
  | Some dateString =>
      if bool_decide (dateString = "") then []
      else getAppointmentsForDate appointments dateString
  | None => []
  end.

(** The [onPress] of a card of the upcoming list and of a day of the grid:
    [setSelectedDate(...)]. *)
Definition pressAppointment (appointment : Appointment) (st : NavState) : NavState :=
  {| currentDate := currentDate st; selectedDate := Some (apt_date appointment) |}.

Definition pressDay (e : DayElement) (st : NavState) : NavState :=
  match e with
  | EmptyCell _ => st
  | DayCell _ dateString _ _ _ =>
      {| currentDate := currentDate st; selectedDate := Some dateString |}
  end.

Record BadgeStyle : Type := mkBadgeStyle {
  backgroundColor : string;
  color : string
}.

Definition getStatusBadgeStyle (status : option string) : BadgeStyle :=
  match status with
  | Some "completed" => {| backgroundColor := "#10B981"; color := "#FFFFFF" |}
  | Some "scheduled" | Some "confirmed" =>
      {| backgroundColor := "#F59E0B"; color := "#FFFFFF" |}
  | Some "cancelled" => {| backgroundColor := "#EF4444"; color := "#FFFFFF" |}
  | _ => {| backgroundColor := "#6B7280"; color := "#FFFFFF" |}
  end.

End CalendarNav.

(** ** Months and zones, for the properties of the navigation *)

Module NavSpec.
Local Open Scope Z_scope.

(** The month after and the month before month [m] (0..11) of year [y]. *)
Definition nextMonth (y m : Z) : Z * Z := if m =? 11 then (y + 1, 0) else (y, m + 1).
Definition prevMonth (y m : Z) : Z * Z := if m =? 0 then (y - 1, 11) else (y, m - 1).

(** A time zone in which every local time, taken to UTC and back, is a
    time of the same local day: the fixed offsets, and the zones whose
    daylight-saving jumps do not push a time over midnight. *)
Definition DayStableZone (LocalTZA : Z → bool → Z) : Prop :=
  (∀ t b, Z.abs (LocalTZA t b) < JsDate.msPerDay) ∧
  (∀ t, JsDate.Day (JsDate.LocalTime LocalTZA (JsDate.UTC LocalTZA t)) = JsDate.Day t).

(** 2024-01-31T06:30:00Z, 2024-03-31T06:30:00Z and 2023-12-15T06:30:00Z. *)
Definition january31 : JsDate.Date := JsDate.mkDate (Some 1706682600000).
Definition march31 : JsDate.Date := JsDate.mkDate (Some 1711866600000).
Definition december15 : JsDate.Date := JsDate.mkDate (Some 1702621800000).

End NavSpec.

(** ** What the grid shows *)

Module CalendarUi.
Import Calendar.

(** The legend under the grid: the colour of each dot and its label. *)
Definition legend : list (string * string) :=
  [ ("#F59E0B", "Scheduled/Confirmed");
    ("#10B981", "Completed");
    ("#8B5CF6", "Mixed Status");
    ("#EF4444", "Cancelled") ].

(** Whether a cell is drawn with the style of the selected day. *)
Definition drawnSelected (e : DayElement) : bool :=
  match e with
  | EmptyCell _ => false
  | DayCell _ _ _ _ isSelected => isSelected
  end.

End CalendarUi.

(** ** More sample data *)

Module MoreSamples.
Import Calendar.

(** A parser for the date strings of the samples: the days of
    [Samples.september] at local midnight of Indian Standard Time, and the
    date string of 15 September 2025. *)
Definition parse (s : string) : option Z :=
  if bool_decide (s = "2025-09-15T00:00:00") then Some 1757874600000%Z
  else if bool_decide (s = "2025-09-16T00:00:00") then Some 1757961000000%Z
  else if bool_decide (s = "Mon Sep 15 2025") then Some 1757874600000%Z
  else None.

Definition toDateString (d : JsDate.Date) : string := "Mon Sep 15 2025".

(** 2025-09-15T06:00:00Z *)
Definition now : Z := 1757916000000%Z.

End MoreSamples.

(** ** More of the built-ins: ISO strings, split and join *)

Module JsMore.
Import JsDate.
Local Open Scope Z_scope.

Definition HourFromTime (t : Z) : Z := (t / msPerHour) mod 24.
Definition MinFromTime (t : Z) : Z := (t / msPerMinute) mod 60.
Definition SecFromTime (t : Z) : Z := (t / msPerSecond) mod 60.
Definition msFromTime (t : Z) : Z := t mod msPerSecond.

(** ToZeroPaddedDecimalString *)
Definition zeroPadded (n : Z) (minLength : nat) : string :=
  Js.padStart (pretty n) minLength "0".

(** [Date.prototype.toISOString]: the date and time in UTC, as
    YYYY-MM-DDTHH:mm:ss.sssZ, the year on six digits with a sign when it is
    outside 0..9999; [None] for the RangeError on an invalid date. *)
Definition toISOString (d : Date) : option string :=
  t ← DateValue d;
  let y := YearFromTime t in
  let year :=
    if (0 <=? y) && (y <=? 9999) then zeroPadded y 4
    else (if y <? 0 then "-" else "+") +:+ zeroPadded (Z.abs y) 6 in
  Some (year +:+ "-" +:+ zeroPadded (MonthFromTime t + 1) 2 +:+ "-" +:+
        zeroPadded (DateFromTime t) 2 +:+ "T" +:+
        zeroPadded (HourFromTime t) 2 +:+ ":" +:+
        zeroPadded (MinFromTime t) 2 +:+ ":" +:+
        zeroPadded (SecFromTime t) 2 +:+ "." +:+
        zeroPadded (msFromTime t) 3 +:+ "Z").

(** [String.prototype.split(separator)] for a separator of one character:
    the pieces between the separators, one piece at least. *)
Fixpoint split (separator : Ascii.ascii) (s : string) : list string :=
  match s with
  | EmptyString => [EmptyString]
  | String c rest =>
      if Ascii.eqb c separator then EmptyString :: split separator rest
      else
        match split separator rest with
        | piece :: pieces => String c piece :: pieces
        | [] => [String c EmptyString]
        end
  end.

(** [Array.prototype.join(separator)] on strings. *)
Fixpoint join (separator : string) (parts : list string) : string :=
  match parts with
  | [] => EmptyString
  | [part] => part
  | part :: rest => part +:+ separator +:+ join separator rest
  end.

(** [Array.prototype.findIndex]: the index of the first element that
    passes the test, -1 when there is none. *)
Fixpoint findIndexFrom {A : Type} (test : A → bool) (i : Z) (l : list A) : Z :=
  match l with
  | [] => -1
  | x :: rest => if test x then i else findIndexFrom test (i + 1) rest
  end.
Definition findIndex {A : Type} (test : A → bool) (l : list A) : Z :=
  findIndexFrom test 0 l.

(** [Array.prototype.slice(start)] for a start that is not negative. *)
Definition sliceFrom {A : Type} (start : Z) (l : list A) : list A :=
  drop (Z.to_nat start) l.

(** [Array.prototype.find] *)
Fixpoint find {A : Type} (test : A → bool) (l : list A) : option A :=
  match l with
  | [] => None
  | x :: rest => if test x then Some x else find test rest
  end.

End JsMore.

(** ** Loading the appointments of the month *)

Module CalendarFetch.
Import Stdlib.Strings.Ascii.
Import JsDate Calendar.

(** The joined [users] row of an appointment. *)
Record RowPatient : Type := mkRowPatient { rp_name : option string }.

(** A row of the [appointments] query; [None] is SQL [null]. *)
Record AppointmentRow : Type := mkAppointmentRow {
  row_id : string;
  row_appointment_date : string;
  row_patient : option RowPatient;
  row_symptoms : option string;
  row_type : option string;
  row_status : option string;
  row_patient_id : string;
  row_doctor_id : string;
  row_notes : option string;
  row_appointment_type : string;
  row_priority : string
}.

(** What the query gives back: an error, or [data], which may be [null]. *)
Inductive Response : Type :=
| ResponseError
| ResponseData (data : option (list AppointmentRow)).

Section Fetch.
(** The built-in parser behind [new Date(string)], and
    [Date.prototype.toLocaleTimeString] with the options of the source. *)
Variable Date_parse : string → option Z.
Variable toLocaleTimeString : Date → string.

(** The callback of [data?.map(...)]; [None] when [toISOString] throws. *)
Definition formatAppointment (apt : AppointmentRow) : option Appointment :=
  iso ← JsMore.toISOString (mkDate (Date_parse (row_appointment_date apt)));
  Some {| apt_id := row_id apt;
          apt_date := hd EmptyString (JsMore.split "T"%char iso);
          apt_patientName :=
            Patients.orString (p ← row_patient apt; rp_name p) "Unknown Patient";
          apt_time := toLocaleTimeString (mkDate (Date_parse (row_appointment_date apt)));
          apt_condition :=
            Patients.orString (row_symptoms apt)
              (Patients.orString (row_type apt) "General Consultation");
          apt_status := row_status apt;
          apt_patient_id := row_patient_id apt;
          apt_doctor_id := row_doctor_id apt;
          apt_symptoms := row_symptoms apt;
          apt_notes := row_notes apt;
          apt_type := row_type apt;
          apt_appointment_type := row_appointment_type apt;
          apt_priority := row_priority apt |}.

(** The appointments of the screen after [fetchAppointments] has run on the
    response of the query: the new list, or the old one when the query
    failed or the mapping threw. *)
Definition fetchAppointments (response : Response)
    (appointments : list Appointment) : list Appointment :=
  match response with
  | ResponseError => appointments
  | ResponseData None => []
  | ResponseData (Some data) =>
      match mapM formatAppointment data with
      | Some formattedAppointments => formattedAppointments
      | None => appointments
      end
  end.
End Fetch.

End CalendarFetch.

(** ** Sample rows *)

Module FetchSamples.

(** Two rows of the query: an appointment at 20:30 UTC on 14 September
    2025, which is 02:00 on the 15th in India, and one at 09:00 UTC on the
    15th; a third whose date is not a date. *)
Definition lateRow : CalendarFetch.AppointmentRow :=
  CalendarFetch.mkAppointmentRow "r1" "2025-09-14T20:30:00+00:00"
    (Some (CalendarFetch.mkRowPatient (Some "Asha Rao"))) None None
    (Some "scheduled") "patient-1" "doctor-1" None "video" "medium".
Definition morningRow : CalendarFetch.AppointmentRow :=
  CalendarFetch.mkAppointmentRow "r2" "2025-09-15T09:00:00+00:00"
    None (Some "Fever") None (Some "confirmed") "patient-2" "doctor-1" None
    "in-person" "high".
Definition brokenRow : CalendarFetch.AppointmentRow :=
  CalendarFetch.mkAppointmentRow "r3" "soon" None None None None "patient-3"
    "doctor-1" None "video" "low".

Definition parseRow (s : string) : option Z :=
  if bool_decide (s = "2025-09-14T20:30:00+00:00") then Some 1757881800000%Z
  else if bool_decide (s = "2025-09-15T09:00:00+00:00") then Some 1757926800000%Z
  else None.

Definition timeOf (d : JsDate.Date) : string := "2:00 AM".

End FetchSamples.

(** ** The reports screen *)

Module Reports.
Import Stdlib.Strings.Ascii.
Import JsMore.

Record PatientRef : Type := mkPatientRef {
  pr_id : string;
  pr_name : string
}.

(** [interface Report] *)
Record Report : Type := mkReport {
  rep_id : string;
  rep_patient_id : string;
  rep_doctor_id : string;
  rep_report_type : string;
  rep_file_path : string;
  rep_file_size : string;
  rep_thumbnail_url : option string;
  rep_status : string;
  rep_upload_date : string;
  rep_reviewed_date : option string;
  rep_notes : option string;
  rep_created_at : string;
  rep_updated_at : string;
  rep_patient : option PatientRef
}.

(** The list of reports after [updateReportStatus]: [updateFailed] tells
    whether the update of the table came back with an error, [now] is
    [new Date().toISOString()] at the time the list is updated. *)
Definition updateReportStatus (updateFailed : bool) (now : string)
    (reportId newStatus : string) (reports : list Report) : list Report :=
  if updateFailed then reports
  else
    (λ report,
       if bool_decide (rep_id report = reportId)
       then {| rep_id := rep_id report;
               rep_patient_id := rep_patient_id report;
               rep_doctor_id := rep_doctor_id report;
               rep_report_type := rep_report_type report;
               rep_file_path := rep_file_path report;
               rep_file_size := rep_file_size report;
               rep_thumbnail_url := rep_thumbnail_url report;
               rep_status := newStatus;
               rep_upload_date := rep_upload_date report;
               rep_reviewed_date :=
                 if bool_decide (newStatus = "reviewed") then Some now else None;
               rep_notes := rep_notes report;
               rep_created_at := rep_created_at report;
               rep_updated_at := rep_updated_at report;
               rep_patient := rep_patient report |}
       else report)
    <$> reports.

Definition handleReviewReport (updateFailed : bool) (now : string)
    (reportId : string) (reports : list Report) : list Report :=
  updateReportStatus updateFailed now reportId "reviewed" reports.


Section Storage.
(** [new URL(filePath).pathname], [None] when the constructor throws; and
    the call of the storage for a signed URL, [None] when it fails. *)
Variable URL_pathname : string → option string.
Variable createSignedUrl : string → option string.

(** The path that [getSignedUrl] asks the storage to sign; [None] when
    [new URL] throws. *)
Definition actualFilePath (filePath : string) : option string :=
  if String.prefix "http" filePath then
    pathname ← URL_pathname filePath;
    let pathParts := split "/"%char pathname in
    let bucketIndex :=
      findIndex (λ part, bool_decide (part = "medical-reports")) pathParts in
    if negb (bucketIndex =? -1)%Z && (bucketIndex <? Z.of_nat (length pathParts) - 1)%Z
    then Some (join "/" (sliceFrom (bucketIndex + 1)%Z pathParts))
    else Some filePath
  else Some filePath.

(** [getSignedUrl]: the signed URL, or [None] when the promise is
    rejected. *)
Definition getSignedUrl (filePath : string) : option string :=
  path ← actualFilePath filePath; createSignedUrl path.
End Storage.

End Reports.

(** ** Sample reports *)

Module ReportSamples.
Import Stdlib.Strings.Ascii.
Import Reports.

(** A segment of a path: a string without a slash. *)
Definition segment (s : string) : Prop :=
  Forall (λ c, c ≠ "/"%char) (String.list_ascii_of_string s).

Definition report (id status : string) : Report :=
  mkReport id "patient-1" "doctor-1" "Blood Test" "patient-1/blood.pdf" "1.2 MB"
    None status "2025-09-01T10:00:00Z" None None "2025-09-01T10:00:00Z"
    "2025-09-01T10:00:00Z" (Some (mkPatientRef "patient-1" "Asha Rao")).

Definition reports : list Report :=
  [ report "rep-1" "pending"; report "rep-2" "urgent"; report "rep-3" "pending" ].

(** The path of a public URL of the storage. *)
Definition pathnameOf (s : string) : option string :=
  if bool_decide (s = "https://example.supabase.co/storage/v1/object/public/medical-reports/patient-1/blood.pdf")
  then Some "/storage/v1/object/public/medical-reports/patient-1/blood.pdf"
  else None.

Definition sign (path : string) : option string :=
  Some ("https://signed.example/" +:+ path).

End ReportSamples.

(** ** The cards of the roster *)

Module PatientsUi.
Import Patients.

(** [setExpandedHistory(expandedHistory === patientId ? null : patientId)] *)
Definition handleHistoryPress (expandedHistory : option string) (patientId : string)
    : option string :=
  if bool_decide (expandedHistory = Some patientId) then None else Some patientId.

(** [expandedHistory === patient.id]: whether the card of the patient shows
    the history. *)
Definition showsHistory (expandedHistory : option string) (patient : Patient) : bool :=
  bool_decide (expandedHistory = Some (pt_id patient)).

(** The prescriptions of a patient, in the order of the response. *)
Definition prescriptionsOf (patientId : string) (prescriptions : list Prescription)
    : list Prescription :=
  filter (λ rx, rx_patient_id rx = patientId) prescriptions.

(** Prescription [a] is dated at or after prescription [b]: the order the
    query asks for. *)
Definition issuedNotBefore (Date_parse : string → option Z) (a b : Prescription) : Prop :=
  ∃ ta tb, Date_parse (rx_created_at a) = Some ta ∧
           Date_parse (rx_created_at b) = Some tb ∧ (tb <= ta)%Z.

(** What [patientMap] holds of the first prescription of each patient. *)
Definition headed (l : list Prescription) (patientMap : gmap string Patient) : Prop :=
  ∀ patientId patient,
    patientMap !! patientId = Some patient →
    ∃ rx patientData,
      head (prescriptionsOf patientId l) = Some rx ∧
      rx_users rx = Some patientData ∧
      pt_lastVisit patient = rx_created_at rx ∧
      pt_name patient = pd_name patientData.

(** The sample prescriptions, the newest first, as the query orders them;
    the second one of the first patient has lost its [users] row. *)
Definition newestFirst : list Prescription :=
  [ Samples.prescription "rx3" "patient-1" "2025-09-05T10:00:00Z";
    Samples.prescription "rx2" "patient-2" "2025-09-03T10:00:00Z";
    mkPrescription "rx1" "patient-1" "2025-09-01T10:00:00Z" None None None None ].

End PatientsUi.

(** ** The side menu of the patient *)

Module SideMenu.

(** [interface MenuItem], without the icon. *)
Record MenuItem : Type := mkMenuItem {
  label : string;
  id : string;
  route : string
}.

Definition menuItems : list MenuItem :=
  [ mkMenuItem "Profile" "profile" "/(patient)/profile";
    mkMenuItem "Doctors" "doctors" "/(patient)/doctors";
    mkMenuItem "Settings" "settings" "/(patient)/settings";
    mkMenuItem "About Us" "about" "/about";
    mkMenuItem "Emergency Contacts" "emergency" "/sos" ].

(** [pathname === item.route || activeItem === item.id] *)
Definition isActive (pathname activeItem : string) (item : MenuItem) : bool :=
  bool_decide (pathname = route item) || bool_decide (activeItem = id item).

End SideMenu.

(** * Properties *)

(** ** The day arithmetic of [Date] *)

Module JsDateFacts.
Import JsDate.
Local Open Scope Z_scope.

Lemma DaysInYear_cases y : DaysInYear y = 365 \/ DaysInYear y = 366.
Proof.
  unfold DaysInYear.
  repeat match goal with |- context [negb ?b] => destruct b; simpl end; auto.
Qed.

Lemma DayFromYear_step y : DayFromYear (y + 1) = DayFromYear y + DaysInYear y.
Proof.
  unfold DayFromYear, DaysInYear.
  repeat match goal with
         | |- context [?a =? ?b] => destruct (Z.eqb_spec a b); simpl
         end; Z.div_mod_to_equations; lia.
Qed.

Lemma DayFromYear_mono y y' : y <= y' -> DayFromYear y <= DayFromYear y'.
Proof.
  intros H. replace y' with (y + Z.of_nat (Z.to_nat (y' - y))) by lia.
  induction (Z.to_nat (y' - y)) as [|n IH].
  - replace (y + Z.of_nat 0) with y by lia. lia.
  - replace (y + Z.of_nat (S n)) with (y + Z.of_nat n + 1) by lia.
    rewrite DayFromYear_step.
    destruct (DaysInYear_cases (y + Z.of_nat n)); lia.
Qed.

Lemma YearFromTime_spec t :
  DayFromYear (YearFromTime t) <= Day t < DayFromYear (YearFromTime t + 1).
Proof.
  unfold YearFromTime. set (d := Day t). clearbody d.
  set (y := 1970 + 400 * d / 146097).
  assert (Hlo : DayFromYear (y - 1) <= d).
  { subst y. unfold DayFromYear. Z.div_mod_to_equations. lia. }
  assert (Hhi : d < DayFromYear (y + 2)).
  { subst y. unfold DayFromYear. Z.div_mod_to_equations. lia. }
  destruct (Z.ltb_spec d (DayFromYear y)).
  - replace (y - 1 + 1) with y by lia. lia.
  - destruct (Z.leb_spec (DayFromYear (y + 1)) d).
    + replace (y + 1 + 1) with (y + 2) by lia. lia.
    + lia.
Qed.

Lemma YearFromTime_unique t y :
  DayFromYear y <= Day t < DayFromYear (y + 1) -> YearFromTime t = y.
Proof.
  intros [Hlo Hhi]. pose proof (YearFromTime_spec t) as [Slo Shi].
  destruct (Z.lt_trichotomy (YearFromTime t) y) as [Hlt | [Heq | Hgt]]; [|done|].
  - pose proof (DayFromYear_mono (YearFromTime t + 1) y ltac:(lia)). lia.
  - pose proof (DayFromYear_mono (y + 1) (YearFromTime t) ltac:(lia)). lia.
Qed.


(** [YearFromTime] is what the language specification says: the largest
    year whose first instant is not after [t]. *)
Lemma YearFromTime_largest t :
  TimeFromYear (YearFromTime t) <= t ∧
  ∀ y, TimeFromYear y <= t → y <= YearFromTime t.
Proof.
  pose proof (YearFromTime_spec t) as [Hlo Hhi].
  unfold TimeFromYear, Day, msPerDay in *. split.
  - Z.div_mod_to_equations. lia.
  - intros y Hy.
    destruct (Z.le_gt_cases y (YearFromTime t)) as [|Hgt]; [done|].
    pose proof (DayFromYear_mono (YearFromTime t + 1) y ltac:(lia)).
    Z.div_mod_to_equations. lia.
Qed.

Lemma DaysInYear_leap y :
  DaysInYear y = if Gregorian.isLeapYear y then 366 else 365.
Proof.
  unfold DaysInYear, Gregorian.isLeapYear.
  repeat match goal with
         | |- context [?a =? ?b] => destruct (Z.eqb_spec a b); simpl
         end; try reflexivity; Z.div_mod_to_equations; lia.
Qed.

Lemma YearFromTime_Day t t' : Day t = Day t' → YearFromTime t = YearFromTime t'.
Proof. unfold YearFromTime. by intros ->. Qed.

Lemma MonthFromTime_Day t t' : Day t = Day t' → MonthFromTime t = MonthFromTime t'.
Proof.
  intros H. unfold MonthFromTime, DayWithinYear, InLeapYear.
  by rewrite H, (YearFromTime_Day _ _ H).
Qed.

Lemma DateFromTime_Day t t' : Day t = Day t' → DateFromTime t = DateFromTime t'.
Proof.
  intros H. unfold DateFromTime, DayWithinYear, InLeapYear.
  by rewrite (MonthFromTime_Day _ _ H), H, (YearFromTime_Day _ _ H).
Qed.

Lemma WeekDay_Day t t' : Day t = Day t' → WeekDay t = WeekDay t'.
Proof. unfold WeekDay. by intros ->. Qed.

Lemma month_cases m : 0 <= m <= 11 →
  m = 0 ∨ m = 1 ∨ m = 2 ∨ m = 3 ∨ m = 4 ∨ m = 5 ∨
  m = 6 ∨ m = 7 ∨ m = 8 ∨ m = 9 ∨ m = 10 ∨ m = 11.
Proof. lia. Qed.

Lemma MonthFromTime_range t : 0 <= MonthFromTime t <= 11.
Proof.
  unfold MonthFromTime.
  repeat match goal with
         | |- context [?a <? ?b] => destruct (Z.ltb_spec a b)
         end; lia.
Qed.

(** The time values of day [MakeDay y mn dt] carry the date they were made
    from. *)
Lemma MakeDay_civil y mn dt t :
  0 <= mn <= 11 → 1 <= dt <= Gregorian.daysInMonth y mn →
  Day t = MakeDay y mn dt →
  YearFromTime t = y ∧ MonthFromTime t = mn ∧ DateFromTime t = dt.
Proof.
  intros Hmn Hdt Hday.
  assert (Hym : y + mn / 12 = y) by (Z.div_mod_to_equations; lia).
  assert (Hmod : mn mod 12 = mn) by (Z.div_mod_to_equations; lia).
  unfold MakeDay in Hday. rewrite Hym, Hmod in Hday.
  pose proof (DaysInYear_leap y) as Hleap.
  assert (Hy : YearFromTime t = y).
  { apply YearFromTime_unique. rewrite DayFromYear_step, Hday, Hleap.
    clear Hday Hym Hmod.
    destruct (month_cases mn Hmn) as [->|[->|[->|[->|[->|[->|[->|[->|[->|[->|[->| ->]]]]]]]]]]];
      unfold Gregorian.daysInMonth in Hdt; rewrite ?Hleap in *;
      destruct (Gregorian.isLeapYear y); simpl in *; lia. }
  split; [done|].
  assert (Hm : MonthFromTime t = mn).
  { unfold MonthFromTime, DayWithinYear, InLeapYear. rewrite Hy, Hday, Hleap.
    clear Hday Hym Hmod Hy.
    destruct (month_cases mn Hmn) as [->|[->|[->|[->|[->|[->|[->|[->|[->|[->|[->| ->]]]]]]]]]]];
      unfold Gregorian.daysInMonth in Hdt;
      destruct (Gregorian.isLeapYear y); simpl in *;
      repeat match goal with
             | |- context [?a <? ?b] => destruct (Z.ltb_spec a b); try lia
             end. }
  split; [done|].
  unfold DateFromTime. rewrite Hm. unfold DayWithinYear, InLeapYear.
  rewrite Hy, Hday, Hleap. clear Hday Hym Hmod Hy Hm.
  destruct (month_cases mn Hmn) as [->|[->|[->|[->|[->|[->|[->|[->|[->|[->|[->| ->]]]]]]]]]]];
    destruct (Gregorian.isLeapYear y); simpl; lia.
Qed.

Lemma daysInMonth_range y m : 28 <= Gregorian.daysInMonth y m <= 31.
Proof.
  unfold Gregorian.daysInMonth.
  repeat match goal with
         | |- context [match ?x with _ => _ end] => destruct x
         end; lia.
Qed.

(** "Day 0 of the next month" is the last day of the month, December
    included: month 12 is month 0 of the next year. *)
Lemma MakeDay_day_zero y m :
  0 <= m <= 11 → MakeDay y (m + 1) 0 = MakeDay y m (Gregorian.daysInMonth y m).
Proof.
  intros Hm. unfold MakeDay.
  destruct (month_cases m Hm) as [->|[->|[->|[->|[->|[->|[->|[->|[->|[->|[->| ->]]]]]]]]]]];
    simpl (_ + 1); simpl (_ / 12); simpl (_ mod 12);
    rewrite ?Z.add_0_r, ?DayFromYear_step, ?DaysInYear_leap;
    unfold Gregorian.daysInMonth;
    destruct (Gregorian.isLeapYear y); simpl; lia.
Qed.

(** [DayFromYear] counted from the quotients of the year before, and of
    the year itself. *)
Lemma DayFromYear_before y :
  DayFromYear y =
  365 * (y - 1) + (y - 1) / 4 - (y - 1) / 100 + (y - 1) / 400 - 719162.
Proof. unfold DayFromYear. Z.div_mod_to_equations. lia. Qed.

Lemma DayFromYear_within y :
  DayFromYear y =
  365 * y + y / 4 - y / 100 + y / 400 - 719527
  - (if Gregorian.isLeapYear y then 1 else 0).
Proof.
  unfold DayFromYear, Gregorian.isLeapYear.
  repeat match goal with
         | |- context [?a =? ?b] => destruct (Z.eqb_spec a b); simpl
         end; Z.div_mod_to_equations; lia.
Qed.

(** The day of the week of a time value is the one of the Gregorian date
    of its day. *)
Lemma WeekDay_MakeDay y m dt t :
  0 <= m <= 11 → Day t = MakeDay y m dt →
  WeekDay t = Gregorian.dayOfWeek y m dt.
Proof.
  intros Hm Hday. unfold WeekDay. rewrite Hday. clear Hday.
  assert (Hym : y + m / 12 = y) by (Z.div_mod_to_equations; lia).
  assert (Hmod : m mod 12 = m) by (Z.div_mod_to_equations; lia).
  unfold MakeDay. rewrite Hym, Hmod, DaysInYear_leap. clear Hym Hmod.
  unfold Gregorian.dayOfWeek.
  destruct (Z.ltb_spec m 2).
  - rewrite DayFromYear_before.
    generalize ((y - 1) / 4) ((y - 1) / 100) ((y - 1) / 400). intros q4 q100 q400.
    assert (m = 0 ∨ m = 1) as [-> | ->] by lia;
      destruct (Gregorian.isLeapYear y); simpl DayOfMonthStart;
      Z.div_mod_to_equations; lia.
  - rewrite DayFromYear_within.
    generalize (y / 4) (y / 100) (y / 400). intros q4 q100 q400.
    destruct (month_cases m Hm) as [->|[->|[->|[->|[->|[->|[->|[->|[->|[->|[->| ->]]]]]]]]]]];
      try lia;
      destruct (Gregorian.isLeapYear y); simpl;
      Z.div_mod_to_equations; lia.
Qed.

Lemma MakeDay_bounds y m dt :
  1000 <= y <= 9999 → 0 <= m <= 12 → 0 <= dt <= 31 →
  -360000 <= MakeDay y m dt <= 2940000.
Proof.
  intros Hy Hm Hdt. unfold MakeDay.
  assert (0 <= m / 12 <= 1) by (Z.div_mod_to_equations; lia).
  assert (0 <= m mod 12 <= 11) by (Z.div_mod_to_equations; lia).
  assert (0 <= DayOfMonthStart (m mod 12)
                  (if DaysInYear (y + m / 12) =? 366 then 1 else 0) <= 335).
  { destruct (_ =? 366);
      destruct (month_cases (m mod 12)) as [->|[->|[->|[->|[->|[->|[->|[->|[->|[->|[->| ->]]]]]]]]]]];
      simpl; lia. }
  unfold DayFromYear. Z.div_mod_to_equations. lia.
Qed.

Section LocalTime.
Variable LocalTZA : Z → bool → Z.
Hypothesis zone : WellBehavedZone LocalTZA.

(** [new Date(y, m, dt)] on a four-digit year is a valid date of the day
    [MakeDay y m dt] of local time. *)
Lemma newDate_Day y m dt :
  1000 <= y <= 9999 → 0 <= m <= 12 → 0 <= dt <= 31 →
  ∃ t, DateValue (newDate LocalTZA (Some y) (Some m) (Some dt)) = Some t ∧
       Day (LocalTime LocalTZA t) = MakeDay y m dt.
Proof.
  intros Hy Hm Hdt. destruct zone as [Hoff Hmid].
  exists (UTC LocalTZA (MakeDay y m dt * msPerDay)).
  pose proof (MakeDay_bounds y m dt Hy Hm Hdt) as Hb.
  split.
  - cbn [newDate DateValue mbind option_bind].
    assert (MakeFullYear y = y) as ->.
    { unfold MakeFullYear.
      destruct (Z.leb_spec 0 y), (Z.leb_spec y 99); simpl; lia. }
    unfold MakeDate, MakeTime. rewrite !Z.mul_0_l, !Z.add_0_r.
    unfold TimeClip.
    destruct (Z.ltb_spec 8640000000000000 (Z.abs (UTC LocalTZA (MakeDay y m dt * msPerDay)))) as [Hbig|]; [|done].
    exfalso. unfold UTC in Hbig.
    specialize (Hoff (MakeDay y m dt * msPerDay) false).
    unfold msPerDay in *. lia.
  - rewrite Hmid.
    + unfold Day. apply Z.div_mul. unfold msPerDay. lia.
    + apply Z.mod_mul. unfold msPerDay. lia.
Qed.

Lemma newDate_fields y m dt :
  1000 <= y <= 9999 → 0 <= m <= 11 → 1 <= dt <= Gregorian.daysInMonth y m →
  let d := newDate LocalTZA (Some y) (Some m) (Some dt) in
  getFullYear LocalTZA d = Some y ∧ getMonth LocalTZA d = Some m ∧
  getDate LocalTZA d = Some dt ∧
  getDay LocalTZA d = Some (Gregorian.dayOfWeek y m dt).
Proof.
  intros Hy Hm Hdt d. pose proof (daysInMonth_range y m).
  destruct (newDate_Day y m dt) as (t & Ht & Hday); [lia..|].
  destruct (MakeDay_civil y m dt _ Hm Hdt Hday) as (Hyr & Hmo & Hda).
  unfold getFullYear, getMonth, getDate, getDay. subst d. rewrite Ht. simpl.
  rewrite Hyr, Hmo, Hda, (WeekDay_MakeDay y m dt _ Hm Hday). done.
Qed.
End LocalTime.

End JsDateFacts.

(** ** The status aggregation *)

Module AggregatorFacts.
Import Calendar Spec.

(** Membership in a list that is written out. *)
Ltac elem_of_list :=
  repeat first [apply list_elem_of_here | apply list_elem_of_further].

Lemma strictEq_true v s : Js.strictEq v s = true ↔ v = Some s.
Proof. unfold Js.strictEq. apply bool_decide_eq_true. Qed.

Lemma existsb_elem_of {A} (f : A → bool) (l : list A) :
  existsb f l = true ↔ ∃ x, x ∈ l ∧ f x = true.
Proof.
  rewrite existsb_exists. split; intros (x & Hx & Hf); exists x;
    (split; [by apply list_elem_of_In | done]).
Qed.

Lemma hasCompleted_spec (day : list Appointment) :
  existsb (λ apt, Js.strictEq (apt_status apt) "completed") day = true ↔
  ∃ apt, apt ∈ day ∧ isCompleted apt.
Proof.
  rewrite existsb_elem_of. unfold isCompleted.
  split; intros (x & Hx & Hf); exists x; (split; [done|]); by apply strictEq_true.
Qed.

Lemma hasScheduled_spec (day : list Appointment) :
  existsb (λ apt, Js.strictEq (apt_status apt) "scheduled"
                  || Js.strictEq (apt_status apt) "confirmed") day = true ↔
  ∃ apt, apt ∈ day ∧ isPending apt.
Proof.
  rewrite existsb_elem_of. unfold isPending.
  split; intros (x & Hx & Hf); exists x; (split; [done|]).
  - apply orb_true_iff in Hf as [Hf | Hf]; apply strictEq_true in Hf; auto.
  - apply orb_true_iff. destruct Hf as [Hf | Hf]; apply strictEq_true in Hf; auto.
Qed.

Lemma length_eqb_0 {A} (l : list A) : (length l =? 0)%nat = true ↔ l = [].
Proof. destruct l; simpl; split; intros; done. Qed.

(** The test of the status of an appointment only reads its status. *)
Lemma existsb_status (f : option string → bool) (l : list Appointment) :
  existsb (λ apt, f (apt_status apt)) l = existsb f (apt_status <$> l).
Proof. induction l as [|x l IH]; simpl; [done | by rewrite IH]. Qed.

Lemma existsb_Permutation {A} (f : A → bool) (l l' : list A) :
  l ≡ₚ l' → existsb f l = existsb f l'.
Proof.
  induction 1 as [| x l l' _ IH | x y l | l l' l'' _ IH1 _ IH2]; simpl.
  - done.
  - by rewrite IH.
  - destruct (f x), (f y); done.
  - by rewrite IH1.
Qed.

(** A day that has appointments, none of them completed, scheduled or
    confirmed, is 'cancelled'. *)
Lemma getAppointmentStatus_unrecognized
    (appointments : list Appointment) (dateString : string) :
  getAppointmentsForDate appointments dateString ≠ [] →
  (∀ apt, apt ∈ getAppointmentsForDate appointments dateString →
          unrecognized (apt_status apt)) →
  getAppointmentStatus appointments dateString = Some "cancelled".
Proof.
  intros Hne Hall. unfold getAppointmentStatus.
  set (day := getAppointmentsForDate appointments dateString) in *.
  destruct (length day =? 0)%nat eqn:Hlen.
  { apply length_eqb_0 in Hlen. done. }
  pose proof (hasCompleted_spec day) as Hc.
  pose proof (hasScheduled_spec day) as Hs.
  destruct (existsb _ day).
  { destruct (proj1 Hc eq_refl) as (apt & Hin & Hst).
    exfalso. apply (Hall apt Hin). rewrite Hst. elem_of_list. }
  destruct (existsb _ day); [|done].
  destruct (proj1 Hs eq_refl) as (apt & Hin & [Hst | Hst]);
    exfalso; apply (Hall apt Hin); rewrite Hst; elem_of_list.
Qed.

(** [collapse] keeps the answer of the three tests of the aggregation. *)
Lemma strictEq_collapse (s : string) (apt : Appointment) :
  s = "completed" ∨ s = "scheduled" ∨ s = "confirmed" →
  Js.strictEq (apt_status (collapse apt)) s = Js.strictEq (apt_status apt) s.
Proof.
  intros Hs. unfold collapse, unrecognized, Js.strictEq.
  destruct (decide _) as [Hun|]; [|done]. simpl.
  rewrite bool_decide_eq_false_2 by (destruct Hs as [->|[->| ->]]; discriminate).
  destruct (bool_decide_reflect (apt_status apt = Some s)) as [Heq|]; [|done].
  exfalso. apply Hun. rewrite Heq.
  destruct Hs as [->|[->| ->]]; elem_of_list.
Qed.

Lemma existsb_collapse (f : option string → bool) (l : list Appointment) :
  (∀ apt, f (apt_status (collapse apt)) = f (apt_status apt)) →
  existsb (λ apt, f (apt_status apt)) (collapse <$> l)
  = existsb (λ apt, f (apt_status apt)) l.
Proof.
  intros Hf. induction l as [|apt l IH]; [done|].
  rewrite fmap_cons. cbn [existsb]. by rewrite IH, Hf.
Qed.

(** C1: on a day that has appointments, [getAppointmentStatus] gives
    'mixed' when one of them is completed and one is scheduled or confirmed;
    otherwise 'completed' when one is completed; otherwise 'scheduled' when
    one is scheduled or confirmed; otherwise 'cancelled'. *)
Theorem getAppointmentStatus_precedence
    (appointments : list Appointment) (dateString : string) :
  getAppointmentsForDate appointments dateString ≠ [] →
  let day := getAppointmentsForDate appointments dateString in
  let anyCompleted := ∃ apt, apt ∈ day ∧ isCompleted apt in
  let anyPending := ∃ apt, apt ∈ day ∧ isPending apt in
  let result := getAppointmentStatus appointments dateString in
  (anyCompleted ∧ anyPending → result = Some "mixed") ∧
  (anyCompleted ∧ ¬ anyPending → result = Some "completed") ∧
  (¬ anyCompleted ∧ anyPending → result = Some "scheduled") ∧
  (¬ anyCompleted ∧ ¬ anyPending → result = Some "cancelled").
Proof.
  intros Hne day anyCompleted anyPending result.
  subst result. unfold getAppointmentStatus. fold day.
  destruct (length day =? 0)%nat eqn:Hlen.
  { apply length_eqb_0 in Hlen. done. }
  pose proof (hasCompleted_spec day) as Hc.
  pose proof (hasScheduled_spec day) as Hs.
  fold anyCompleted in Hc. fold anyPending in Hs.
  destruct (existsb _ day), (existsb _ day); simpl;
    repeat split; intros [H1 H2]; try done;
    first [ apply Hc in H1; done | apply Hs in H2; done
          | exfalso; apply H1, Hc; done | exfalso; apply H2, Hs; done ].
Qed.

Lemma getAppointmentStatus_precedence_witness :
  getAppointmentsForDate Samples.september "2025-09-15" ≠ [] ∧
  getAppointmentStatus Samples.september "2025-09-15" = Some "mixed".
Proof.
  assert (H : getAppointmentsForDate Samples.september "2025-09-15" ≠ [])
    by (vm_compute; discriminate).
  split; [exact H|].
  apply (getAppointmentStatus_precedence Samples.september "2025-09-15" H).
  split.
  - exists (Samples.appointment "a1" "2025-09-15" (Some "completed")).
    split; [vm_compute; apply list_elem_of_here | reflexivity].
  - exists (Samples.appointment "a2" "2025-09-15" (Some "scheduled")).
    split; [vm_compute; apply list_elem_of_further, list_elem_of_here | left; reflexivity].
Defined.

(** The days of the testable properties of the specification. *)
Example day_completed_scheduled :
  getAppointmentStatus
    [Samples.appointment "1" "d" (Some "completed");
     Samples.appointment "2" "d" (Some "scheduled")] "d" = Some "mixed".
Proof. reflexivity. Qed.

Example day_completed_completed :
  getAppointmentStatus
    [Samples.appointment "1" "d" (Some "completed");
     Samples.appointment "2" "d" (Some "completed")] "d" = Some "completed".
Proof. reflexivity. Qed.

Example day_confirmed :
  getAppointmentStatus [Samples.appointment "1" "d" (Some "confirmed")] "d"
  = Some "scheduled".
Proof. reflexivity. Qed.

Example day_cancelled_cancelled :
  getAppointmentStatus
    [Samples.appointment "1" "d" (Some "cancelled");
     Samples.appointment "2" "d" (Some "cancelled")] "d" = Some "cancelled".
Proof. reflexivity. Qed.

(** C2: a day whose lookup is empty has the status none ([null]) and
    [hasAppointment] false; a day with an appointment has [hasAppointment]
    true. *)
Theorem empty_day_none (appointments : list Appointment) (dateString : string) :
  (getAppointmentsForDate appointments dateString = [] →
   getAppointmentStatus appointments dateString = None ∧
   hasAppointment appointments dateString = false) ∧
  (getAppointmentsForDate appointments dateString ≠ [] →
   hasAppointment appointments dateString = true).
Proof.
  unfold getAppointmentStatus, hasAppointment.
  destruct (getAppointmentsForDate appointments dateString) as [|apt day].
  - split; [done|]. intros H. by destruct H.
  - split; [done|]. intros _. reflexivity.
Qed.

Lemma empty_day_none_witness :
  getAppointmentStatus Samples.september "2025-09-01" = None ∧
  hasAppointment Samples.september "2025-09-01" = false ∧
  hasAppointment Samples.september "2025-09-16" = true.
Proof.
  split; [|split].
  - apply (proj1 (empty_day_none Samples.september "2025-09-01")). reflexivity.
  - apply (proj1 (empty_day_none Samples.september "2025-09-01")). reflexivity.
  - apply (proj2 (empty_day_none Samples.september "2025-09-16")).
    vm_compute. discriminate.
Defined.

(** C6: the status of a day is a function of the multiset of the statuses
    of its appointments: two days whose statuses are the same up to order
    get the same result, whatever the order of the appointments and
    whatever their other fields. *)
Theorem getAppointmentStatus_multiset
    (appointments appointments' : list Appointment) (dateString dateString' : string) :
  apt_status <$> getAppointmentsForDate appointments dateString
    ≡ₚ apt_status <$> getAppointmentsForDate appointments' dateString' →
  getAppointmentStatus appointments dateString
  = getAppointmentStatus appointments' dateString'.
Proof.
  intros Hperm. unfold getAppointmentStatus.
  set (day := getAppointmentsForDate appointments dateString) in *.
  set (day' := getAppointmentsForDate appointments' dateString') in *.
  assert (Hlen : length day = length day').
  { apply Permutation_length in Hperm. by rewrite !length_fmap in Hperm. }
  rewrite Hlen.
  rewrite (existsb_status (λ v, Js.strictEq v "completed") day),
    (existsb_status (λ v, Js.strictEq v "completed") day'),
    (existsb_status (λ v, Js.strictEq v "scheduled" || Js.strictEq v "confirmed") day),
    (existsb_status (λ v, Js.strictEq v "scheduled" || Js.strictEq v "confirmed") day').
  by rewrite !(existsb_Permutation _ _ _ Hperm).
Qed.

Lemma getAppointmentStatus_multiset_witness :
  getAppointmentStatus Samples.september "2025-09-15"
  = getAppointmentStatus Samples.septemberShuffled "2025-09-15".
Proof.
  apply (getAppointmentStatus_multiset Samples.september Samples.septemberShuffled
           "2025-09-15" "2025-09-15").
  vm_compute. apply perm_swap.
Defined.

(** C8: [getAppointmentStatus] has a composite status for every list of
    appointments and every day; an appointment whose status is not one of
    the four of the data model, or is absent, counts as a cancelled one, and
    a day that has only such appointments is 'cancelled'. *)
Theorem getAppointmentStatus_total
    (appointments : list Appointment) (dateString : string) :
  CompositeStatus (getAppointmentStatus appointments dateString) ∧
  getAppointmentStatus (collapse <$> appointments) dateString
  = getAppointmentStatus appointments dateString ∧
  (getAppointmentsForDate appointments dateString ≠ [] →
   (∀ apt, apt ∈ getAppointmentsForDate appointments dateString →
           unrecognized (apt_status apt)) →
   getAppointmentStatus appointments dateString = Some "cancelled").
Proof.
  split; [|split].
  - unfold getAppointmentStatus, CompositeStatus.
    destruct (length _ =? 0)%nat; [tauto|].
    destruct (existsb _ _), (existsb _ _); simpl; tauto.
  - assert (Hday : getAppointmentsForDate (collapse <$> appointments) dateString
                   = collapse <$> getAppointmentsForDate appointments dateString).
    { unfold getAppointmentsForDate.
      induction appointments as [|apt l IH]; [done|].
      rewrite fmap_cons, !filter_cons, IH.
      assert (Hd : apt_date (collapse apt) = apt_date apt).
      { unfold collapse. by destruct (decide _). }
      rewrite Hd. by destruct (decide (apt_date apt = dateString)). }
    unfold getAppointmentStatus. rewrite Hday, length_fmap.
    set (day := getAppointmentsForDate appointments dateString).
    rewrite (existsb_collapse (λ v, Js.strictEq v "completed")),
      (existsb_collapse (λ v, Js.strictEq v "scheduled" || Js.strictEq v "confirmed")).
    + done.
    + intros apt. by rewrite !strictEq_collapse by auto.
    + intros apt. by rewrite strictEq_collapse by auto.
  - intros Hne Hall.
    apply (getAppointmentStatus_unrecognized appointments dateString Hne Hall).
Qed.

Lemma getAppointmentStatus_total_witness :
  getAppointmentStatus Samples.strangeDay "2025-09-15" = Some "cancelled".
Proof.
  apply (getAppointmentStatus_total Samples.strangeDay "2025-09-15").
  - vm_compute. discriminate.
  - intros apt Hin. vm_compute in Hin.
    repeat (apply elem_of_cons in Hin as [->|Hin];
            [intros H; vm_compute in H;
             repeat (apply elem_of_cons in H as [H|H]; [discriminate H|]);
             by apply elem_of_nil in H|]).
    by apply elem_of_nil in Hin.
Defined.

End AggregatorFacts.

(** ** The month grid *)

Module GridFacts.
Import JsDate Calendar Spec JsDateFacts.
Local Open Scope Z_scope.

Lemma fixed_offset_zone (offset : Z) :
  Z.abs offset < msPerDay → WellBehavedZone (λ _ _, offset).
Proof.
  intros Hoff. split; [done|].
  intros t _. unfold LocalTime, UTC. f_equal. lia.
Qed.

Lemma push_loop {A} (body : Z → A) (l : list Z) (days : list A) :
  fold_left (λ acc i, acc ++ [body i]) l days = days ++ (body <$> l).
Proof.
  revert days. induction l as [|i l IH]; intros days; simpl.
  - by rewrite app_nil_r.
  - by rewrite IH, <- app_assoc.
Qed.

Lemma pretty_fourDigits (y : Z) : 1000 <= y <= 9999 → pretty y = fourDigits y.
Proof.
  intros Hy.
  assert (H : bool_decide (Forall (λ y, pretty y = fourDigits y) (seqZ 1000 9000)) = true)
    by (vm_compute; reflexivity).
  apply bool_decide_eq_true in H. rewrite Forall_seqZ in H. apply H. lia.
Qed.

Lemma padStart_twoDigits (n : Z) :
  0 <= n <= 99 → Js.padStart (pretty n) 2 "0" = twoDigits n.
Proof.
  intros Hn.
  assert (H : bool_decide (Forall (λ n, Js.padStart (pretty n) 2 "0" = twoDigits n)
                             (seqZ 0 100)) = true)
    by (vm_compute; reflexivity).
  apply bool_decide_eq_true in H. rewrite Forall_seqZ in H. apply H. lia.
Qed.

Lemma formatDate_dateKey (y m d : Z) :
  1000 <= y <= 9999 → 0 <= m <= 11 → 1 <= d <= 31 →
  formatDate (Some y) (Some m) (Some d) = dateKey y m d.
Proof.
  intros Hy Hm Hd. unfold formatDate, dateKey. simpl.
  by rewrite pretty_fourDigits, !padStart_twoDigits by lia.
Qed.

Section Grid.
Variable LocalTZA : Z → bool → Z.
Hypothesis zone : WellBehavedZone LocalTZA.

Lemma getMonth_range date m : getMonth LocalTZA date = Some m → 0 <= m <= 11.
Proof.
  unfold getMonth. destruct (DateValue date) as [t|]; [|done].
  simpl. intros [= <-]. apply MonthFromTime_range.
Qed.

Lemma getDaysInMonth_eq date y m :
  1000 <= y <= 9999 →
  getFullYear LocalTZA date = Some y → getMonth LocalTZA date = Some m →
  getDaysInMonth LocalTZA date = Some (Gregorian.daysInMonth y m).
Proof.
  intros Hy Hyear Hmonth. pose proof (getMonth_range _ _ Hmonth) as Hm.
  unfold getDaysInMonth. rewrite Hyear, Hmonth. simpl fmap.
  destruct (newDate_Day LocalTZA zone y (m + 1) 0) as (t & Ht & Hday); [lia..|].
  rewrite MakeDay_day_zero in Hday by done.
  pose proof (daysInMonth_range y m).
  destruct (MakeDay_civil y m (Gregorian.daysInMonth y m) _ Hm ltac:(lia) Hday)
    as (_ & _ & Hdate).
  unfold getDate. rewrite Ht. simpl. by rewrite Hdate.
Qed.

Lemma getFirstDayOfMonth_eq date y m :
  1000 <= y <= 9999 →
  getFullYear LocalTZA date = Some y → getMonth LocalTZA date = Some m →
  getFirstDayOfMonth LocalTZA date = Some (Gregorian.dayOfWeek y m 1).
Proof.
  intros Hy Hyear Hmonth. pose proof (getMonth_range _ _ Hmonth) as Hm.
  unfold getFirstDayOfMonth. rewrite Hyear, Hmonth.
  pose proof (daysInMonth_range y m).
  by destruct (newDate_fields LocalTZA zone y m 1 Hy Hm ltac:(lia)) as (_ & _ & _ & ->).
Qed.

(** The array of [renderCalendar], written out. *)
Lemma renderCalendar_eq currentDate selectedDate appointments y m :
  1000 <= y <= 9999 →
  getFullYear LocalTZA currentDate = Some y →
  getMonth LocalTZA currentDate = Some m →
  renderCalendar LocalTZA currentDate selectedDate appointments
  = (EmptyCell <$> seqZ 0 (Gregorian.dayOfWeek y m 1)) ++
    ((λ day,
        let dateString := formatDate (Some y) (Some m) (Some day) in
        DayCell day dateString (hasAppointment appointments dateString)
          (getAppointmentStatus appointments dateString)
          (bool_decide (selectedDate = Some dateString)))
     <$> seqZ 1 (Gregorian.daysInMonth y m)).
Proof.
  intros Hy Hyear Hmonth. unfold renderCalendar.
  rewrite (getDaysInMonth_eq _ _ _ Hy Hyear Hmonth),
    (getFirstDayOfMonth_eq _ _ _ Hy Hyear Hmonth), Hyear, Hmonth.
  unfold Js.forLt, Js.forLe. rewrite !push_loop. simpl app.
  by rewrite Z.sub_0_r, Z.sub_add.
Qed.
End Grid.

Lemma dayOfWeek_range y m d : 0 <= Gregorian.dayOfWeek y m d <= 6.
Proof.
  unfold Gregorian.dayOfWeek.
  match goal with |- _ <= ?x mod 7 <= _ => pose proof (Z.mod_pos_bound x 7) end.
  lia.
Qed.

(** A daylight-saving jump that removes the first hour of a day is within
    the assumptions: midnight of that day comes back as one o'clock. *)
Lemma jumpAtMidnight_zone : WellBehavedZone Samples.jumpAtMidnight.
Proof.
  split.
  - intros t b. unfold Samples.jumpAtMidnight, msPerDay.
    destruct b; destruct (_ <? _); lia.
  - intros t Ht. unfold LocalTime, UTC, Samples.jumpAtMidnight, JsDate.Day, msPerDay in *.
    destruct (Z.ltb_spec t 1707526800000);
      match goal with
      | |- context [?a <? ?b] => destruct (Z.ltb_spec a b)
      end; try (f_equal; lia); Z.div_mod_to_equations; lia.
Qed.

Example jumpAtMidnight_first_day :
  getDay Samples.jumpAtMidnight
    (newDate Samples.jumpAtMidnight (Some 2024) (Some 1) (Some 10)) = Some 6 ∧
  DateValue (newDate Samples.jumpAtMidnight (Some 2024) (Some 1) (Some 10))
  = Some 1707534000000.
Proof. split; reflexivity. Qed.

Lemma IST_zone : WellBehavedZone Samples.IST.
Proof. apply fixed_offset_zone. reflexivity. Qed.

(** Every month of a four-digit year is the month of a date: of its first
    day, for one. *)
Lemma month_has_date LocalTZA (y m : Z) :
  WellBehavedZone LocalTZA → 1000 <= y <= 9999 → 0 <= m <= 11 →
  let date := newDate LocalTZA (Some y) (Some m) (Some 1) in
  getFullYear LocalTZA date = Some y ∧ getMonth LocalTZA date = Some m.
Proof.
  intros zone Hy Hm date. pose proof (daysInMonth_range y m).
  destruct (newDate_fields LocalTZA zone y m 1 Hy Hm ltac:(lia)) as (? & ? & _).
  done.
Qed.

(** C3: for every four-digit year [y] and every month [m] (zero-based, 0
    to 11) there are dates of that year and month, and for each of them
    [getDaysInMonth] is the number of days the Gregorian calendar gives the
    month: 31 for December, through day 0 of month 12, which is month 0 of
    the next year; 28 for February 2023 and 29 for February 2024. *)
Theorem getDaysInMonth_gregorian (LocalTZA : Z → bool → Z) (y m : Z) :
  WellBehavedZone LocalTZA → 1000 <= y <= 9999 → 0 <= m <= 11 →
  (∃ date, getFullYear LocalTZA date = Some y ∧ getMonth LocalTZA date = Some m) ∧
  ∀ date,
    getFullYear LocalTZA date = Some y → getMonth LocalTZA date = Some m →
    getDaysInMonth LocalTZA date = Some (Gregorian.daysInMonth y m) ∧
    (m = 11 → getDaysInMonth LocalTZA date = Some 31) ∧
    (y = 2023 → m = 1 → getDaysInMonth LocalTZA date = Some 28) ∧
    (y = 2024 → m = 1 → getDaysInMonth LocalTZA date = Some 29).
Proof.
  intros zone Hy Hm. split.
  - exists (newDate LocalTZA (Some y) (Some m) (Some 1)).
    by apply month_has_date.
  - intros date Hyear Hmonth.
    pose proof (getDaysInMonth_eq LocalTZA zone date y m Hy Hyear Hmonth) as Heq.
    split; [done|]. rewrite Heq. repeat split; intros; subst; reflexivity.
Qed.

Lemma getDaysInMonth_gregorian_witness :
  WellBehavedZone Samples.IST ∧
  getFullYear Samples.IST Samples.february2024 = Some 2024 ∧
  getMonth Samples.IST Samples.february2024 = Some 1 ∧
  getDaysInMonth Samples.IST Samples.february2024 = Some 29.
Proof.
  assert (Hyear : getFullYear Samples.IST Samples.february2024 = Some 2024)
    by (vm_compute; reflexivity).
  assert (Hmonth : getMonth Samples.IST Samples.february2024 = Some 1)
    by (vm_compute; reflexivity).
  split; [exact IST_zone|]. split; [exact Hyear|]. split; [exact Hmonth|].
  apply (getDaysInMonth_gregorian Samples.IST 2024 1 IST_zone ltac:(lia) ltac:(lia));
    [exact Hyear | exact Hmonth | reflexivity | reflexivity].
Defined.

(** C4: for a date of a four-digit year, the array of [renderCalendar] has
    as many elements as the weekday of the first day of the month (0 for
    Sunday) plus the number of days of the month: first that many empty
    cells, then the cells of the days, numbered 1, 2, ... up to the number of
    days of the month. *)
Theorem renderCalendar_grid (LocalTZA : Z → bool → Z) (currentDate : Date)
    (selectedDate : option string) (appointments : list Appointment) (y m : Z) :
  WellBehavedZone LocalTZA → 1000 <= y <= 9999 →
  getFullYear LocalTZA currentDate = Some y →
  getMonth LocalTZA currentDate = Some m →
  let leadingBlanks := Gregorian.dayOfWeek y m 1 in
  let daysInMonth := Gregorian.daysInMonth y m in
  let days := renderCalendar LocalTZA currentDate selectedDate appointments in
  getFirstDayOfMonth LocalTZA currentDate = Some leadingBlanks ∧
  getDaysInMonth LocalTZA currentDate = Some daysInMonth ∧
  0 <= leadingBlanks <= 6 ∧
  Z.of_nat (length days) = leadingBlanks + daysInMonth ∧
  ∃ dayCells,
    days = (EmptyCell <$> seqZ 0 leadingBlanks) ++ dayCells ∧
    dayNumberOf <$> dayCells = Some <$> seqZ 1 daysInMonth.
Proof.
  intros zone Hy Hyear Hmonth leadingBlanks daysInMonth days.
  pose proof (dayOfWeek_range y m 1) as Hlb.
  pose proof (daysInMonth_range y m) as Hdim.
  split; [by apply getFirstDayOfMonth_eq|].
  split; [by apply getDaysInMonth_eq|].
  split; [done|].
  subst days. rewrite (renderCalendar_eq LocalTZA zone _ _ _ y m Hy Hyear Hmonth).
  fold leadingBlanks daysInMonth. split.
  - rewrite length_app, !length_fmap, !length_seqZ. lia.
  - eexists. split; [reflexivity|].
    rewrite <- list_fmap_compose. by apply list_fmap_ext.
Qed.

Lemma renderCalendar_grid_witness :
  getFullYear Samples.IST Samples.september2025 = Some 2025 ∧
  getMonth Samples.IST Samples.september2025 = Some 8 ∧
  getFirstDayOfMonth Samples.IST Samples.september2025 = Some 1 ∧
  getDaysInMonth Samples.IST Samples.september2025 = Some 30 ∧
  Z.of_nat (length (renderCalendar Samples.IST Samples.september2025 None
                      Samples.september)) = 31.
Proof.
  assert (Hyear : getFullYear Samples.IST Samples.september2025 = Some 2025)
    by (vm_compute; reflexivity).
  assert (Hmonth : getMonth Samples.IST Samples.september2025 = Some 8)
    by (vm_compute; reflexivity).
  split; [exact Hyear|]. split; [exact Hmonth|].
  destruct (renderCalendar_grid Samples.IST Samples.september2025 None
              Samples.september 2025 8 IST_zone ltac:(lia) Hyear Hmonth)
    as (Hfirst & Hdays & _ & Hlen & _).
  split; [exact Hfirst|]. split; [exact Hdays|]. exact Hlen.
Defined.

(** C5: for a day [d] of the month of a four-digit year, the key that
    [renderCalendar] builds is YYYY-MM-DD, with the month counted from one
    and month and day on two digits; the cell of the day carries the answers
    of the lookup under that key, and the lookup gives the appointments of
    the list whose date is the key, all of them and only them, in the order
    of the list. *)
Theorem date_key_lookup (LocalTZA : Z → bool → Z) (currentDate : Date)
    (selectedDate : option string) (appointments : list Appointment) (y m d : Z) :
  WellBehavedZone LocalTZA → 1000 <= y <= 9999 →
  getFullYear LocalTZA currentDate = Some y →
  getMonth LocalTZA currentDate = Some m →
  1 <= d <= Gregorian.daysInMonth y m →
  let key := formatDate (Some y) (Some m) (Some d) in
  key = dateKey y m d ∧
  renderCalendar LocalTZA currentDate selectedDate appointments
    !! Z.to_nat (Gregorian.dayOfWeek y m 1 + d - 1)
  = Some (DayCell d key (hasAppointment appointments key)
            (getAppointmentStatus appointments key)
            (bool_decide (selectedDate = Some key))) ∧
  (∀ apt, apt ∈ getAppointmentsForDate appointments key
          ↔ apt ∈ appointments ∧ apt_date apt = key) ∧
  getAppointmentsForDate appointments key `sublist_of` appointments.
Proof.
  intros zone Hy Hyear Hmonth Hd key.
  pose proof (getMonth_range LocalTZA _ _ Hmonth) as Hm.
  pose proof (dayOfWeek_range y m 1) as Hlb.
  pose proof (daysInMonth_range y m) as Hdim.
  split; [apply formatDate_dateKey; lia|]. split; [|split].
  - rewrite (renderCalendar_eq LocalTZA zone _ _ _ y m Hy Hyear Hmonth).
    rewrite lookup_app_r; rewrite length_fmap, length_seqZ; [|lia].
    rewrite list_lookup_fmap.
    replace (Z.to_nat (Gregorian.dayOfWeek y m 1 + d - 1)
             - Z.to_nat (Gregorian.dayOfWeek y m 1))%nat
      with (Z.to_nat (d - 1)) by lia.
    rewrite lookup_seqZ_lt by lia.
    replace (1 + Z.of_nat (Z.to_nat (d - 1))) with d by lia. done.
  - intros apt. unfold getAppointmentsForDate. rewrite list_elem_of_filter. tauto.
  - apply sublist_filter.
Qed.

Lemma date_key_lookup_witness :
  formatDate (Some 2025) (Some 8) (Some 15) = "2025-09-15" ∧
  renderCalendar Samples.IST Samples.september2025 None Samples.september
    !! 15%nat
  = Some (DayCell 15 "2025-09-15" true (Some "mixed") false).
Proof.
  assert (Hyear : getFullYear Samples.IST Samples.september2025 = Some 2025)
    by (vm_compute; reflexivity).
  assert (Hmonth : getMonth Samples.IST Samples.september2025 = Some 8)
    by (vm_compute; reflexivity).
  destruct (date_key_lookup Samples.IST Samples.september2025 None
              Samples.september 2025 8 15 IST_zone ltac:(lia) Hyear Hmonth
              ltac:(vm_compute; split; discriminate))
    as (Hkey & Hcell & _).
  split; [exact Hkey | exact Hcell].
Defined.

(** C7: the cells of the grid, as the specification has them (empty, or
    a day with its number, whether it has an appointment and its composite
    status), are a function of the year and month of the date shown and of
    the appointments: what else the date holds and which day is selected do
    not change them; the whole array is a function of these and of the
    selected day, and nothing else. *)
Theorem renderCalendar_pure (LocalTZA : Z → bool → Z) (date date' : Date)
    (selectedDate selectedDate' : option string) (appointments : list Appointment) :
  getFullYear LocalTZA date = getFullYear LocalTZA date' →
  getMonth LocalTZA date = getMonth LocalTZA date' →
  cellOf <$> renderCalendar LocalTZA date selectedDate appointments
  = cellOf <$> renderCalendar LocalTZA date' selectedDate' appointments ∧
  (selectedDate = selectedDate' →
   renderCalendar LocalTZA date selectedDate appointments
   = renderCalendar LocalTZA date' selectedDate' appointments).
Proof.
  intros Hyear Hmonth.
  unfold renderCalendar, getDaysInMonth, getFirstDayOfMonth.
  rewrite <- Hyear, <- Hmonth. split.
  - unfold Js.forLt, Js.forLe.
    destruct (getDay _ _), (getDate _ _); rewrite ?push_loop, ?app_nil_r, ?fmap_app;
      simpl; rewrite <- ?list_fmap_compose; done.
  - by intros <-.
Qed.

Lemma renderCalendar_pure_witness :
  cellOf <$> renderCalendar Samples.IST Samples.february2024 None Samples.september
  = cellOf <$> renderCalendar Samples.IST Samples.lateFebruary2024
                 (Some "2024-02-14") Samples.september.
Proof.
  apply (renderCalendar_pure Samples.IST Samples.february2024
           Samples.lateFebruary2024 None (Some "2024-02-14") Samples.september);
    vm_compute; reflexivity.
Defined.

End GridFacts.

(** ** The upcoming appointments *)

Module UpcomingFacts.
Import JsDate Calendar Spec.

(** C10: the list of upcoming appointments has at most 10 elements; the
    date of each of them, read as a [Date], is valid and not before the
    [Date] of the start of the current day; the elements come in the order
    they have in the list of appointments. *)
Theorem upcomingAppointments_bounded (appointments : list Appointment)
    (Date_parse : string → option Z) (Date_now : Z) (toDateString : Date → string) :
  let upcoming := upcomingAppointments appointments Date_parse Date_now toDateString in
  length upcoming ≤ 10 ∧
  (∀ apt, apt ∈ upcoming →
     ∃ t today,
       Date_parse (apt_date apt +:+ "T00:00:00") = Some t ∧
       DateValue (startOfToday Date_parse Date_now toDateString) = Some today ∧
       (today <= t)%Z) ∧
  upcoming `sublist_of` appointments.
Proof.
  intros upcoming. subst upcoming. unfold upcomingAppointments.
  split; [apply firstn_le_length|]. split.
  - intros apt Hin.
    apply (λ H, elem_of_sublist _ _ _ H (sublist_take _ _)) in Hin.
    apply list_elem_of_filter in Hin as [Hge _].
    unfold Date_ge, Js.le, getTime in Hge. simpl in Hge.
    destruct (Date_parse (toDateString _)) as [today|] eqn:Htoday; [|done].
    destruct (Date_parse (apt_date apt +:+ _)) as [t|]; [|done].
    exists t, today. repeat split; [done|]. by apply Z.leb_le.
  - etrans; [apply sublist_take | apply sublist_filter].
Qed.

End UpcomingFacts.

(** ** The patient roster *)

Module PatientFacts.
Import Patients Spec.

(** *** The sort *)

Lemma sortInsert_Permutation {A} (comparefn : A → A → option Z) (x : A) (l : list A) :
  sortInsert comparefn x l ≡ₚ x :: l.
Proof.
  induction l as [|y l IH]; simpl; [done|].
  destruct (sortsBefore comparefn y x); [|done].
  by rewrite IH, perm_swap.
Qed.

Lemma sort_Permutation {A} (comparefn : A → A → option Z) (l : list A) :
  sort comparefn l ≡ₚ l.
Proof.
  induction l as [|x l IH]; simpl; [done|].
  unfold sort in *. by rewrite sortInsert_Permutation, IH.
Qed.

Section ByDate.
Variable Date_parse : string → option Z.

Lemma sortsBefore_true (a b : HistoryEntry) :
  sortsBefore (byDateDescending Date_parse) a b = true →
  notBefore Date_parse a b.
Proof.
  unfold sortsBefore, byDateDescending, notBefore.
  destruct (Date_parse (he_date b)) as [tb|]; [|done].
  destruct (Date_parse (he_date a)) as [ta|]; [|done].
  simpl. intros H%Z.ltb_lt. exists ta, tb. repeat split; lia.
Qed.

Lemma sortsBefore_false (a b : HistoryEntry) :
  dated Date_parse a → dated Date_parse b →
  sortsBefore (byDateDescending Date_parse) a b = false →
  notBefore Date_parse b a.
Proof.
  unfold sortsBefore, byDateDescending, notBefore, dated.
  intros [ta ->] [tb ->]. simpl. intros H%Z.ltb_ge.
  exists tb, ta. repeat split; lia.
Qed.

Lemma notBefore_trans (a b c : HistoryEntry) :
  notBefore Date_parse a b → notBefore Date_parse b c → notBefore Date_parse a c.
Proof.
  intros (ta & tb & Ha & Hb & Hab) (tb' & tc & Hb' & Hc & Hbc).
  exists ta, tc. repeat split; [done..|]. congruence || (simplify_eq; lia).
Qed.

Lemma sortInsert_sorted (x : HistoryEntry) (l : list HistoryEntry) :
  dated Date_parse x → Forall (dated Date_parse) l →
  StronglySorted (notBefore Date_parse) l →
  StronglySorted (notBefore Date_parse) (sortInsert (byDateDescending Date_parse) x l).
Proof.
  intros Hx Hl Hsorted.
  induction Hsorted as [|y l Hsorted IH Hy]; simpl.
  - repeat constructor.
  - apply Forall_cons in Hl as [Hdy Hl].
    destruct (sortsBefore _ y x) eqn:Hbefore.
    + constructor; [by apply IH|].
      rewrite sortInsert_Permutation. constructor; [|done].
      by apply sortsBefore_true.
    + pose proof (sortsBefore_false y x Hdy Hx Hbefore) as Hxy.
      constructor; [by constructor|]. constructor; [done|].
      eapply Forall_impl; [exact Hy|]. intros z Hz.
      by eapply notBefore_trans.
Qed.

Lemma sort_sorted (l : list HistoryEntry) :
  Forall (dated Date_parse) l →
  StronglySorted (notBefore Date_parse) (sort (byDateDescending Date_parse) l).
Proof.
  induction 1 as [|x l Hx Hl IH]; simpl; [constructor|].
  apply sortInsert_sorted; [done| |done].
  fold (sort (byDateDescending Date_parse) l). by rewrite sort_Permutation.
Qed.
End ByDate.

(** *** The grouping *)

Lemma filter_absent (patientId : string) (l : list Prescription) :
  patientId ∉ rx_patient_id <$> l →
  filter (λ rx, rx_patient_id rx = patientId) l = [].
Proof.
  induction l as [|rx l IH]; [done|].
  rewrite fmap_cons, not_elem_of_cons. intros [Hne Hl].
  rewrite filter_cons. destruct (decide _); [congruence | by apply IH].
Qed.

Lemma elem_of_ids_snoc (patientId : string) (l : list Prescription) (rx : Prescription) :
  patientId ∈ rx_patient_id <$> (l ++ [rx])
  ↔ patientId ∈ rx_patient_id <$> l ∨ patientId = rx_patient_id rx.
Proof.
  rewrite fmap_app, elem_of_app. simpl. by rewrite list_elem_of_singleton.
Qed.

Lemma addPrescription_grouped (l : list Prescription)
    (patientMap : gmap string Patient) (rx : Prescription) :
  wellFormed rx → grouped l patientMap →
  ∃ patientMap', addPrescription patientMap rx = Some patientMap' ∧
                 grouped (l ++ [rx]) patientMap'.
Proof.
  intros [[patientData Husers] Hown] Hgrouped.
  unfold addPrescription, getProperty.
  pose proof (Hgrouped (rx_patient_id rx)) as Hhere.
  destruct (patientMap !! rx_patient_id rx) as [patient|] eqn:Hlookup.
  - simpl. rewrite Hlookup. eexists. split; [reflexivity|].
    intros patientId. destruct (decide (patientId = rx_patient_id rx)) as [->|Hne].
    + rewrite lookup_insert_eq. simpl.
      destruct Hhere as (Hid & Hhist & Hin).
      split; [done|]. split.
      * rewrite Hhist, filter_app, fmap_app, filter_cons, decide_True by done.
        done.
      * apply elem_of_ids_snoc. by left.
    + rewrite lookup_insert_ne by done.
      specialize (Hgrouped patientId).
      destruct (patientMap !! patientId) as [other|].
      * destruct Hgrouped as (Hid & Hhist & Hin). split; [done|]. split.
        -- rewrite Hhist, filter_app, filter_cons, decide_False by done.
           by rewrite filter_nil, app_nil_r.
        -- apply elem_of_ids_snoc. by left.
      * rewrite elem_of_ids_snoc. tauto.
  - rewrite bool_decide_eq_false_2 by done. rewrite Husers. simpl.
    rewrite lookup_insert_eq. eexists. split; [reflexivity|].
    rewrite insert_insert_eq.
    intros patientId. destruct (decide (patientId = rx_patient_id rx)) as [->|Hne].
    + rewrite lookup_insert_eq. simpl. split; [done|]. split.
      * rewrite filter_app, filter_absent by done.
        by rewrite filter_cons, decide_True by done.
      * apply elem_of_ids_snoc. by right.
    + rewrite lookup_insert_ne by done.
      specialize (Hgrouped patientId).
      destruct (patientMap !! patientId) as [other|].
      * destruct Hgrouped as (Hid & Hhist & Hin). split; [done|]. split.
        -- rewrite Hhist, filter_app, filter_cons, decide_False by done.
           by rewrite filter_nil, app_nil_r.
        -- apply elem_of_ids_snoc. by left.
      * rewrite elem_of_ids_snoc. tauto.
Qed.

Lemma groupByPatient_grouped (l : list Prescription) :
  Forall wellFormed l →
  ∃ patientMap, groupByPatient l = Some patientMap ∧ grouped l patientMap.
Proof.
  induction l as [|rx l IH] using rev_ind; intros Hl.
  - exists ∅. split; [done|]. intros patientId.
    rewrite lookup_empty. apply not_elem_of_nil.
  - apply Forall_app in Hl as [Hl Hrx]. apply Forall_inv in Hrx.
    destruct (IH Hl) as (patientMap & Hfold & Hgrouped).
    unfold groupByPatient in *. rewrite foldl_snoc, Hfold.
    exact (addPrescription_grouped l patientMap rx Hrx Hgrouped).
Qed.

(** A proof that a string is not in a list that is written out. *)
Ltac not_elem_of_list :=
  let H := fresh in
  intros H;
  repeat (apply elem_of_cons in H as [H|H]; [discriminate H|]);
  by apply elem_of_nil in H.

Lemma sample_prescriptions_wellFormed : Forall wellFormed Samples.prescriptions.
Proof.
  repeat constructor; try (by eexists); simpl; not_elem_of_list.
Qed.

Lemma sample_prescriptions_dated :
  Forall (λ rx, is_Some (Samples.parse (rx_created_at rx))) Samples.prescriptions.
Proof. repeat constructor; by eexists. Qed.

(** The roster of the sample: two patients, the later prescription of the
    first patient before the earlier one. *)
Example sample_roster_histories :
  ∀ patient,
    patient ∈ patients (fetchPatientsWithPrescriptions Samples.parse
                          (ResponseData Samples.prescriptions) Samples.emptyScreen) →
    (pt_id patient = "patient-1" ∧ he_id <$> pt_history patient = ["rx3"; "rx1"]) ∨
    (pt_id patient = "patient-2" ∧ he_id <$> pt_history patient = ["rx2"]).
Proof.
  vm_compute fetchPatientsWithPrescriptions. simpl patients. intros patient Hin.
  repeat (apply elem_of_cons in Hin as [->|Hin]; [simpl; tauto|]).
  by apply elem_of_nil in Hin.
Qed.

(** A prescription whose [users] row is [null] makes the loop throw: the
    roster stays as it was. *)
Example users_null_keeps_roster (st : ScreenState) :
  patients (fetchPatientsWithPrescriptions Samples.parse
              (ResponseData [mkPrescription "rx9" "patient-9" "2025-09-01T10:00:00Z"
                               None None None None]) st)
  = patients st.
Proof. reflexivity. Qed.

(** C9: when the loop takes every prescription (its [users] row is there,
    and the id of its patient is not the name of an inherited property) and
    the parser reads every [created_at], the roster that
    [fetchPatientsWithPrescriptions] installs has one patient for each
    distinct [patient_id] of the prescriptions and no other; the history of
    a patient has one entry for each prescription of that patient, and is
    sorted by descending date. *)
Theorem fetchPatients_grouped (Date_parse : string → option Z)
    (prescriptions : list Prescription) (st : ScreenState) :
  Forall wellFormed prescriptions →
  Forall (λ rx, is_Some (Date_parse (rx_created_at rx))) prescriptions →
  let roster :=
    patients (fetchPatientsWithPrescriptions Date_parse
                (ResponseData prescriptions) st) in
  NoDup (pt_id <$> roster) ∧
  (∀ patientId,
     patientId ∈ pt_id <$> roster ↔ patientId ∈ rx_patient_id <$> prescriptions) ∧
  (∀ patient, patient ∈ roster →
     pt_history patient
       ≡ₚ historyEntryOf
            <$> filter (λ rx, rx_patient_id rx = pt_id patient) prescriptions ∧
     StronglySorted (notBefore Date_parse) (pt_history patient)).
Proof.
  intros Hwf Hdated roster.
  destruct (groupByPatient_grouped prescriptions Hwf) as (patientMap & Hgroup & Hgrouped).
  subst roster. unfold fetchPatientsWithPrescriptions. rewrite Hgroup.
  cbn [patients]. unfold patientsArrayOf.
  set (sorted := λ patient : Patient, mkPatient _ _ _ _ _ _ _ _).
  assert (Hkeys : pt_id <$> (sorted <$> (map_to_list patientMap).*2)
                  = (map_to_list patientMap).*1).
  { rewrite <- !list_fmap_compose. apply list_fmap_ext.
    intros i [patientId patient] Hi. simpl.
    apply list_elem_of_lookup_2, elem_of_map_to_list in Hi.
    specialize (Hgrouped patientId). rewrite Hi in Hgrouped. tauto. }
  split; [|split].
  - rewrite Hkeys. apply NoDup_fst_map_to_list.
  - intros patientId. rewrite Hkeys.
    specialize (Hgrouped patientId). split.
    + intros ([k patient] & -> & Hin)%list_elem_of_fmap.
      apply elem_of_map_to_list in Hin. simpl in *.
      rewrite Hin in Hgrouped. tauto.
    + intros Hin. destruct (patientMap !! patientId) as [patient|] eqn:Hlookup; [|done].
      apply list_elem_of_fmap. exists (patientId, patient).
      split; [done|]. by apply elem_of_map_to_list.
  - intros patient' (patient & -> & Hin)%list_elem_of_fmap.
    apply list_elem_of_fmap in Hin as ([patientId p] & -> & Hin).
    apply elem_of_map_to_list in Hin. simpl.
    specialize (Hgrouped patientId). rewrite Hin in Hgrouped.
    destruct Hgrouped as (Hid & Hhist & _). split.
    + by rewrite sort_Permutation, Hhist, Hid.
    + apply sort_sorted. rewrite Hhist.
      apply Forall_fmap, Forall_forall. intros rx [_ Hrx]%list_elem_of_filter.
      rewrite Forall_forall in Hdated. exact (Hdated rx Hrx).
Qed.

Lemma fetchPatients_grouped_witness :
  NoDup (pt_id <$> patients (fetchPatientsWithPrescriptions Samples.parse
                               (ResponseData Samples.prescriptions)
                               Samples.emptyScreen)).
Proof.
  apply (fetchPatients_grouped Samples.parse Samples.prescriptions Samples.emptyScreen
           sample_prescriptions_wellFormed sample_prescriptions_dated).
Defined.

End PatientFacts.

(** ** The navigation between months *)

Module NavFacts.
Import JsDate Calendar CalendarNav NavSpec JsDateFacts.
Local Open Scope Z_scope.

Lemma MakeDay_in_year y m dt :
  0 <= m <= 11 →
  MakeDay y m dt
  = DayFromYear y + DayOfMonthStart m (if Gregorian.isLeapYear y then 1 else 0) + dt - 1.
Proof.
  intros Hm.
  assert (Hym : y + m / 12 = y) by (Z.div_mod_to_equations; lia).
  assert (Hmod : m mod 12 = m) by (Z.div_mod_to_equations; lia).
  unfold MakeDay. rewrite Hym, Hmod, DaysInYear_leap.
  by destruct (Gregorian.isLeapYear y).
Qed.

(** A month outside 0..11 is a month of another year. *)
Lemma MakeDay_norm y m dt : MakeDay y m dt = MakeDay (y + m / 12) (m mod 12) dt.
Proof.
  unfold MakeDay.
  assert (m mod 12 / 12 = 0) as -> by (Z.div_mod_to_equations; lia).
  assert (m mod 12 mod 12 = m mod 12) as -> by (Z.div_mod_to_equations; lia).
  by rewrite Z.add_0_r.
Qed.

(** A day past the end of a month is a day of the month after. *)
Lemma MakeDay_shift y m k :
  0 <= m <= 11 → MakeDay y (m + 1) k = MakeDay y m (Gregorian.daysInMonth y m + k).
Proof.
  intros Hm. pose proof (MakeDay_day_zero y m Hm) as H0.
  unfold MakeDay in *. lia.
Qed.

(** Every time value is a time of the day that [MakeDay] makes from its
    year, month and day of the month. *)
Lemma fields_of_time t :
  let y := YearFromTime t in
  let m := MonthFromTime t in
  let d := DateFromTime t in
  0 <= m <= 11 ∧ 1 <= d <= Gregorian.daysInMonth y m ∧ Day t = MakeDay y m d.
Proof.
  intros y m d. pose proof (MonthFromTime_range t) as Hm. fold m in Hm.
  split; [done|]. rewrite (MakeDay_in_year y m d Hm).
  pose proof (YearFromTime_spec t) as [Hlo Hhi]. fold y in Hlo, Hhi.
  rewrite DayFromYear_step, DaysInYear_leap in Hhi.
  subst d m. unfold DateFromTime, MonthFromTime, DayWithinYear, InLeapYear.
  fold y. rewrite DaysInYear_leap.
  unfold Gregorian.daysInMonth.
  destruct (Gregorian.isLeapYear y); simpl;
    repeat match goal with
           | |- context [?a <? ?b] => destruct (Z.ltb_spec a b); simpl
           end; lia.
Qed.

Lemma year_bounds_Day t :
  -200000 <= YearFromTime t <= 200000 → -80000000 <= Day t <= 80000000.
Proof.
  intros Hy. pose proof (YearFromTime_spec t) as [Hlo Hhi].
  pose proof (DayFromYear_mono (-200000) (YearFromTime t) ltac:(lia)) as H1.
  pose proof (DayFromYear_mono (YearFromTime t + 1) 200001 ltac:(lia)) as H2.
  assert (-80000000 <= DayFromYear (-200000)) by (vm_compute; discriminate).
  assert (DayFromYear 200001 <= 80000000) by (vm_compute; discriminate).
  lia.
Qed.

Lemma MakeDay_bounds_wide y m dt :
  -200000 <= y <= 200000 → -1 <= m <= 12 → 0 <= dt <= 31 →
  -80000000 <= MakeDay y m dt <= 80000000.
Proof.
  intros Hy Hm Hdt. rewrite MakeDay_norm.
  assert (-1 <= m / 12 <= 1) by (Z.div_mod_to_equations; lia).
  assert (Hmn : 0 <= m mod 12 <= 11) by (Z.div_mod_to_equations; lia).
  rewrite (MakeDay_in_year _ _ _ Hmn).
  pose proof (DayFromYear_mono (-200001) (y + m / 12) ltac:(lia)) as H1.
  pose proof (DayFromYear_mono (y + m / 12) 200001 ltac:(lia)) as H2.
  assert (-79000000 <= DayFromYear (-200001)) by (vm_compute; discriminate).
  assert (DayFromYear 200001 <= 79000000) by (vm_compute; discriminate).
  assert (0 <= DayOfMonthStart (m mod 12)
                  (if Gregorian.isLeapYear (y + m / 12) then 1 else 0) <= 335).
  { destruct (Gregorian.isLeapYear _);
      destruct (month_cases (m mod 12) Hmn) as [->|[->|[->|[->|[->|[->|[->|[->|[->|[->|[->| ->]]]]]]]]]]];
      simpl; lia. }
  lia.
Qed.

Lemma fixed_offset_stable (offset : Z) :
  Z.abs offset < msPerDay → DayStableZone (λ _ _, offset).
Proof.
  intros Hoff. split; [done|].
  intros t. unfold LocalTime, UTC. f_equal. lia.
Qed.

Lemma IST_stable : DayStableZone Samples.IST.
Proof. apply fixed_offset_stable. reflexivity. Qed.

(** The jump at midnight of the sample zone keeps every time in its day. *)
Lemma jumpAtMidnight_stable : DayStableZone Samples.jumpAtMidnight.
Proof.
  split.
  - intros t b. unfold Samples.jumpAtMidnight, msPerDay.
    destruct b; destruct (_ <? _); lia.
  - intros t. unfold LocalTime, UTC, Samples.jumpAtMidnight, JsDate.Day, msPerDay.
    destruct (Z.ltb_spec t 1707526800000);
      match goal with
      | |- context [?a <? ?b] => destruct (Z.ltb_spec a b)
      end; try (f_equal; lia); Z.div_mod_to_equations; lia.
Qed.

Section Zone.
Variable LocalTZA : Z → bool → Z.
Hypothesis zone : DayStableZone LocalTZA.

(** [setMonth] on a copy of a date: the date of the day that [MakeDay]
    makes from the year and the day of the date and from the month given. *)
Lemma setMonth_fields (date : Date) (y m d mm y2 m2 d2 : Z) :
  getFullYear LocalTZA date = Some y →
  getMonth LocalTZA date = Some m →
  getDate LocalTZA date = Some d →
  -200000 <= y <= 200000 → -1 <= mm <= 12 →
  0 <= m2 <= 11 → 1 <= d2 <= Gregorian.daysInMonth y2 m2 →
  MakeDay y mm d = MakeDay y2 m2 d2 →
  let date' := setMonth LocalTZA (copyDate date) (Some mm) in
  getFullYear LocalTZA date' = Some y2 ∧ getMonth LocalTZA date' = Some m2 ∧
  getDate LocalTZA date' = Some d2.
Proof.
  intros Hyear Hmonth Hdate Hy Hmm Hm2 Hd2 Hday date'.
  destruct zone as [Hoff Hstable].
  unfold getFullYear, getMonth, getDate in Hyear, Hmonth, Hdate.
  destruct (DateValue date) as [t0|] eqn:Ht0; [|done].
  simpl in Hyear, Hmonth, Hdate.
  injection Hyear as Hyear. injection Hmonth as Hmonth. injection Hdate as Hdate.
  set (t := LocalTime LocalTZA t0) in *.
  pose proof (fields_of_time t) as (_ & Hd & _). rewrite Hyear, Hmonth, Hdate in Hd.
  pose proof (daysInMonth_range y m) as Hdim.
  assert (Hbt : -80000000 <= Day t <= 80000000) by (apply year_bounds_Day; lia).
  assert (Hclip0 : TimeClip t0 = Some t0).
  { unfold TimeClip.
    destruct (Z.ltb_spec 8640000000000000 (Z.abs t0)) as [Hbig|]; [|done].
    exfalso. subst t. unfold LocalTime, Day in Hbt. specialize (Hoff t0 true).
    unfold msPerDay in *. Z.div_mod_to_equations. lia. }
  pose proof (MakeDay_bounds_wide y mm d Hy Hmm ltac:(lia)) as Hbd.
  set (newDate := MakeDate (MakeDay y mm d) (TimeWithinDay t)).
  assert (Hwithin : 0 <= TimeWithinDay t < msPerDay).
  { unfold TimeWithinDay. apply Z.mod_pos_bound. reflexivity. }
  assert (Hnew : DateValue date' = Some (UTC LocalTZA newDate)).
  { subst date'. unfold setMonth, copyDate. cbn [DateValue]. rewrite Ht0. simpl.
    rewrite Hclip0. simpl. fold t. rewrite Hyear, Hdate. fold newDate.
    unfold TimeClip.
    destruct (Z.ltb_spec 8640000000000000 (Z.abs (UTC LocalTZA newDate))) as [Hbig|]; [|done].
    exfalso. unfold UTC in Hbig. specialize (Hoff newDate false).
    subst newDate. unfold MakeDate, msPerDay in *. lia. }
  assert (Hnewday : Day (LocalTime LocalTZA (UTC LocalTZA newDate)) = MakeDay y2 m2 d2).
  { rewrite Hstable, <- Hday. subst newDate. unfold MakeDate, Day.
    unfold msPerDay in *. Z.div_mod_to_equations. lia. }
  destruct (MakeDay_civil y2 m2 d2 _ Hm2 Hd2 Hnewday) as (H1 & H2 & H3).
  unfold getFullYear, getMonth, getDate. rewrite Hnew. simpl.
  by rewrite H1, H2, H3.
Qed.

Lemma date_day_range (date : Date) (y m d : Z) :
  getFullYear LocalTZA date = Some y →
  getMonth LocalTZA date = Some m →
  getDate LocalTZA date = Some d →
  0 <= m <= 11 ∧ 1 <= d <= Gregorian.daysInMonth y m.
Proof.
  unfold getFullYear, getMonth, getDate.
  destruct (DateValue date) as [t0|]; [|done]. simpl.
  intros [= <-] [= <-] [= <-].
  pose proof (fields_of_time (LocalTime LocalTZA t0)) as (? & ? & _). done.
Qed.
End Zone.

Lemma nextMonth_range y m : 0 <= m <= 11 → 0 <= (nextMonth y m).2 <= 11.
Proof. unfold nextMonth. destruct (Z.eqb_spec m 11); simpl; lia. Qed.

Lemma prevMonth_range y m : 0 <= m <= 11 → 0 <= (prevMonth y m).2 <= 11.
Proof. unfold prevMonth. destruct (Z.eqb_spec m 0); simpl; lia. Qed.

Lemma MakeDay_next y m dt :
  0 <= m <= 11 → MakeDay y (m + 1) dt = MakeDay (nextMonth y m).1 (nextMonth y m).2 dt.
Proof.
  intros Hm. unfold nextMonth. destruct (Z.eqb_spec m 11) as [->|]; [|done].
  by rewrite MakeDay_norm.
Qed.

Lemma MakeDay_prev y m dt :
  0 <= m <= 11 → MakeDay y (m - 1) dt = MakeDay (prevMonth y m).1 (prevMonth y m).2 dt.
Proof.
  intros Hm. unfold prevMonth. destruct (Z.eqb_spec m 0) as [->|]; [|done].
  by rewrite MakeDay_norm.
Qed.

(** A day past the end of month [m] is a day of the month after [m]. *)
Lemma MakeDay_over y m dt :
  0 <= m <= 11 →
  MakeDay y m dt
  = MakeDay (nextMonth y m).1 (nextMonth y m).2 (dt - Gregorian.daysInMonth y m).
Proof.
  intros Hm. rewrite <- MakeDay_next, MakeDay_shift by done. f_equal. lia.
Qed.

Lemma nextMonth_prevMonth y m :
  0 <= m <= 11 →
  nextMonth (prevMonth y m).1 (prevMonth y m).2 = (y, m) ∧
  prevMonth (nextMonth y m).1 (nextMonth y m).2 = (y, m).
Proof.
  intros Hm. unfold nextMonth, prevMonth.
  destruct (Z.eqb_spec m 0), (Z.eqb_spec m 11); simpl; try lia;
    repeat match goal with
           | |- context [?a =? ?b] => destruct (Z.eqb_spec a b); try lia
           end; split; f_equal; lia.
Qed.

(** X1: 'next' on a date whose day of the month the next month has too
    shows the next month (January of the next year after December) on the
    same day of the month, and clears the selection. *)
Theorem navigateMonth_next (LocalTZA : Z → bool → Z) (st : NavState) (y m d : Z) :
  DayStableZone LocalTZA → -200000 <= y <= 200000 →
  getFullYear LocalTZA (currentDate st) = Some y →
  getMonth LocalTZA (currentDate st) = Some m →
  getDate LocalTZA (currentDate st) = Some d →
  d <= Gregorian.daysInMonth (nextMonth y m).1 (nextMonth y m).2 →
  let st' := navigateMonth LocalTZA dir_next st in
  getFullYear LocalTZA (currentDate st') = Some (nextMonth y m).1 ∧
  getMonth LocalTZA (currentDate st') = Some (nextMonth y m).2 ∧
  getDate LocalTZA (currentDate st') = Some d ∧
  selectedDate st' = None.
Proof.
  intros zone Hy Hyear Hmonth Hdate Hd st'.
  destruct (date_day_range LocalTZA _ _ _ _ Hyear Hmonth Hdate) as [Hm Hd1].
  subst st'. unfold navigateMonth. cbn [currentDate selectedDate].
  rewrite Hmonth. cbn [fmap option_fmap option_map].
  destruct (setMonth_fields LocalTZA zone (currentDate st) y m d (m + 1)
              (nextMonth y m).1 (nextMonth y m).2 d Hyear Hmonth Hdate Hy
              ltac:(lia) (nextMonth_range y m Hm) ltac:(lia) (MakeDay_next y m d Hm))
    as (H1 & H2 & H3).
  done.
Qed.

Lemma navigateMonth_next_witness :
  let st' := navigateMonth Samples.IST dir_next (mkNavState december15 (Some "2023-12-15")) in
  getFullYear Samples.IST (currentDate st') = Some 2024 ∧
  getMonth Samples.IST (currentDate st') = Some 0 ∧
  getDate Samples.IST (currentDate st') = Some 15 ∧
  selectedDate st' = None.
Proof.
  apply (navigateMonth_next Samples.IST (mkNavState december15 (Some "2023-12-15"))
           2023 11 15 IST_stable);
    [lia | reflexivity | reflexivity | reflexivity | vm_compute; discriminate].
Defined.

(** X2: 'prev' on a date whose day of the month the month before has too
    shows the month before (December of the year before, from January) on
    the same day of the month, and clears the selection. *)
Theorem navigateMonth_prev (LocalTZA : Z → bool → Z) (st : NavState) (y m d : Z) :
  DayStableZone LocalTZA → -200000 <= y <= 200000 →
  getFullYear LocalTZA (currentDate st) = Some y →
  getMonth LocalTZA (currentDate st) = Some m →
  getDate LocalTZA (currentDate st) = Some d →
  d <= Gregorian.daysInMonth (prevMonth y m).1 (prevMonth y m).2 →
  let st' := navigateMonth LocalTZA dir_prev st in
  getFullYear LocalTZA (currentDate st') = Some (prevMonth y m).1 ∧
  getMonth LocalTZA (currentDate st') = Some (prevMonth y m).2 ∧
  getDate LocalTZA (currentDate st') = Some d ∧
  selectedDate st' = None.
Proof.
  intros zone Hy Hyear Hmonth Hdate Hd st'.
  destruct (date_day_range LocalTZA _ _ _ _ Hyear Hmonth Hdate) as [Hm Hd1].
  subst st'. unfold navigateMonth. cbn [currentDate selectedDate].
  rewrite Hmonth. cbn [fmap option_fmap option_map].
  destruct (setMonth_fields LocalTZA zone (currentDate st) y m d (m - 1)
              (prevMonth y m).1 (prevMonth y m).2 d Hyear Hmonth Hdate Hy
              ltac:(lia) (prevMonth_range y m Hm) ltac:(lia) (MakeDay_prev y m d Hm))
    as (H1 & H2 & H3).
  done.
Qed.

Lemma navigateMonth_prev_witness :
  let st' := navigateMonth Samples.IST dir_prev (mkNavState Samples.february2024 None) in
  getFullYear Samples.IST (currentDate st') = Some 2024 ∧
  getMonth Samples.IST (currentDate st') = Some 0 ∧
  getDate Samples.IST (currentDate st') = Some 10 ∧
  selectedDate st' = None.
Proof.
  apply (navigateMonth_prev Samples.IST (mkNavState Samples.february2024 None)
           2024 1 10 IST_stable);
    [lia | reflexivity | reflexivity | reflexivity | vm_compute; discriminate].
Defined.

(** X3: 'next' on a date whose day of the month the next month does not
    have (the 31st before a month of 30 days, the 29th to 31st of January)
    skips the next month: the month shown is the one after it, on day
    [d] minus the length of the month skipped. *)
Theorem navigateMonth_next_overflow (LocalTZA : Z → bool → Z) (st : NavState)
    (y m d : Z) :
  DayStableZone LocalTZA → -200000 <= y <= 200000 →
  getFullYear LocalTZA (currentDate st) = Some y →
  getMonth LocalTZA (currentDate st) = Some m →
  getDate LocalTZA (currentDate st) = Some d →
  let y1 := (nextMonth y m).1 in
  let m1 := (nextMonth y m).2 in
  Gregorian.daysInMonth y1 m1 < d →
  let st' := navigateMonth LocalTZA dir_next st in
  getFullYear LocalTZA (currentDate st') = Some (nextMonth y1 m1).1 ∧
  getMonth LocalTZA (currentDate st') = Some (nextMonth y1 m1).2 ∧
  getDate LocalTZA (currentDate st') = Some (d - Gregorian.daysInMonth y1 m1).
Proof.
  intros zone Hy Hyear Hmonth Hdate y1 m1 Hd st'.
  destruct (date_day_range LocalTZA _ _ _ _ Hyear Hmonth Hdate) as [Hm Hd1].
  pose proof (nextMonth_range y m Hm) as Hm1. fold m1 in Hm1.
  pose proof (daysInMonth_range y m). pose proof (daysInMonth_range y1 m1).
  pose proof (daysInMonth_range (nextMonth y1 m1).1 (nextMonth y1 m1).2).
  subst st'. unfold navigateMonth. cbn [currentDate selectedDate].
  rewrite Hmonth. cbn [fmap option_fmap option_map].
  apply (setMonth_fields LocalTZA zone (currentDate st) y m d (m + 1)
           (nextMonth y1 m1).1 (nextMonth y1 m1).2 (d - Gregorian.daysInMonth y1 m1)
           Hyear Hmonth Hdate Hy ltac:(lia) (nextMonth_range y1 m1 Hm1) ltac:(lia)).
  rewrite (MakeDay_next y m d Hm). fold y1 m1. by apply MakeDay_over.
Qed.

Lemma navigateMonth_next_overflow_witness :
  let st' := navigateMonth Samples.IST dir_next (mkNavState january31 None) in
  getFullYear Samples.IST (currentDate st') = Some 2024 ∧
  getMonth Samples.IST (currentDate st') = Some 2 ∧
  getDate Samples.IST (currentDate st') = Some 2.
Proof.
  apply (navigateMonth_next_overflow Samples.IST (mkNavState january31 None)
           2024 0 31 IST_stable);
    [lia | reflexivity | reflexivity | reflexivity | vm_compute; reflexivity].
Defined.

(** X4: 'prev' on a date whose day of the month the month before does not
    have (the 31st after a month of 30 days, the 29th to 31st of March)
    stays in the month it was in, on day [d] minus the length of the month
    before. *)
Theorem navigateMonth_prev_overflow (LocalTZA : Z → bool → Z) (st : NavState)
    (y m d : Z) :
  DayStableZone LocalTZA → -200000 <= y <= 200000 →
  getFullYear LocalTZA (currentDate st) = Some y →
  getMonth LocalTZA (currentDate st) = Some m →
  getDate LocalTZA (currentDate st) = Some d →
  let y1 := (prevMonth y m).1 in
  let m1 := (prevMonth y m).2 in
  Gregorian.daysInMonth y1 m1 < d →
  let st' := navigateMonth LocalTZA dir_prev st in
  getFullYear LocalTZA (currentDate st') = Some y ∧
  getMonth LocalTZA (currentDate st') = Some m ∧
  getDate LocalTZA (currentDate st') = Some (d - Gregorian.daysInMonth y1 m1).
Proof.
  intros zone Hy Hyear Hmonth Hdate y1 m1 Hd st'.
  destruct (date_day_range LocalTZA _ _ _ _ Hyear Hmonth Hdate) as [Hm Hd1].
  pose proof (prevMonth_range y m Hm) as Hm1. fold m1 in Hm1.
  pose proof (daysInMonth_range y m). pose proof (daysInMonth_range y1 m1).
  subst st'. unfold navigateMonth. cbn [currentDate selectedDate].
  rewrite Hmonth. cbn [fmap option_fmap option_map].
  apply (setMonth_fields LocalTZA zone (currentDate st) y m d (m - 1)
           y m (d - Gregorian.daysInMonth y1 m1)
           Hyear Hmonth Hdate Hy ltac:(lia) Hm ltac:(lia)).
  rewrite (MakeDay_prev y m d Hm). fold y1 m1.
  rewrite (MakeDay_over y1 m1 d Hm1).
  destruct (nextMonth_prevMonth y m Hm) as [Hnp _]. fold y1 m1 in Hnp.
  by rewrite Hnp.
Qed.

Lemma navigateMonth_prev_overflow_witness :
  let st' := navigateMonth Samples.IST dir_prev (mkNavState march31 None) in
  getFullYear Samples.IST (currentDate st') = Some 2024 ∧
  getMonth Samples.IST (currentDate st') = Some 2 ∧
  getDate Samples.IST (currentDate st') = Some 2.
Proof.
  apply (navigateMonth_prev_overflow Samples.IST (mkNavState march31 None)
           2024 2 31 IST_stable);
    [lia | reflexivity | reflexivity | reflexivity | vm_compute; reflexivity].
Defined.

(** X5: on a date whose day of the month is at most 28, 'next' then
    'prev', and 'prev' then 'next', come back to the year, the month and the
    day they started from. *)
Theorem navigateMonth_round_trip (LocalTZA : Z → bool → Z) (st : NavState)
    (y m d : Z) :
  DayStableZone LocalTZA → -199999 <= y <= 199999 →
  getFullYear LocalTZA (currentDate st) = Some y →
  getMonth LocalTZA (currentDate st) = Some m →
  getDate LocalTZA (currentDate st) = Some d →
  d <= 28 →
  ∀ first second,
    first ≠ second →
    let st' := navigateMonth LocalTZA second (navigateMonth LocalTZA first st) in
    getFullYear LocalTZA (currentDate st') = Some y ∧
    getMonth LocalTZA (currentDate st') = Some m ∧
    getDate LocalTZA (currentDate st') = Some d.
Proof.
  intros zone Hy Hyear Hmonth Hdate Hd first second Hne st'.
  destruct (date_day_range LocalTZA _ _ _ _ Hyear Hmonth Hdate) as [Hm Hd1].
  pose proof (nextMonth_range y m Hm) as Hn. pose proof (prevMonth_range y m Hm) as Hp.
  pose proof (daysInMonth_range (nextMonth y m).1 (nextMonth y m).2).
  pose proof (daysInMonth_range (prevMonth y m).1 (prevMonth y m).2).
  destruct (nextMonth_prevMonth y m Hm) as [Hnp Hpn].
  assert (Hny : -200000 <= (nextMonth y m).1 <= 200000)
    by (unfold nextMonth; destruct (m =? 11); simpl; lia).
  assert (Hpy : -200000 <= (prevMonth y m).1 <= 200000)
    by (unfold prevMonth; destruct (m =? 0); simpl; lia).
  subst st'. destruct first, second; try done; clear Hne.
  - (* prev, then next *)
    assert (Hfirst : currentDate (navigateMonth LocalTZA dir_prev st)
                     = setMonth LocalTZA (copyDate (currentDate st)) (Some (m - 1))).
    { unfold navigateMonth. cbn [currentDate]. by rewrite Hmonth. }
    destruct (setMonth_fields LocalTZA zone (currentDate st) y m d (m - 1)
                (prevMonth y m).1 (prevMonth y m).2 d Hyear Hmonth Hdate ltac:(lia)
                ltac:(lia) Hp ltac:(lia) (MakeDay_prev y m d Hm))
      as (H1 & H2 & H3).
    rewrite <- Hfirst in H1, H2, H3.
    set (st1 := navigateMonth LocalTZA dir_prev st) in *.
    assert (Hsecond : currentDate (navigateMonth LocalTZA dir_next st1)
                      = setMonth LocalTZA (copyDate (currentDate st1))
                          (Some ((prevMonth y m).2 + 1))).
    { unfold navigateMonth at 1. cbn [currentDate]. by rewrite H2. }
    rewrite Hsecond.
    apply (setMonth_fields LocalTZA zone (currentDate st1) _ _ _
             ((prevMonth y m).2 + 1) y m d H1 H2 H3 Hpy ltac:(lia) Hm ltac:(lia)).
    rewrite (MakeDay_next _ _ d Hp). by rewrite Hnp.
  - (* next, then prev *)
    assert (Hfirst : currentDate (navigateMonth LocalTZA dir_next st)
                     = setMonth LocalTZA (copyDate (currentDate st)) (Some (m + 1))).
    { unfold navigateMonth. cbn [currentDate]. by rewrite Hmonth. }
    destruct (setMonth_fields LocalTZA zone (currentDate st) y m d (m + 1)
                (nextMonth y m).1 (nextMonth y m).2 d Hyear Hmonth Hdate ltac:(lia)
                ltac:(lia) Hn ltac:(lia) (MakeDay_next y m d Hm))
      as (H1 & H2 & H3).
    rewrite <- Hfirst in H1, H2, H3.
    set (st1 := navigateMonth LocalTZA dir_next st) in *.
    assert (Hsecond : currentDate (navigateMonth LocalTZA dir_prev st1)
                      = setMonth LocalTZA (copyDate (currentDate st1))
                          (Some ((nextMonth y m).2 - 1))).
    { unfold navigateMonth at 1. cbn [currentDate]. by rewrite H2. }
    rewrite Hsecond.
    apply (setMonth_fields LocalTZA zone (currentDate st1) _ _ _
             ((nextMonth y m).2 - 1) y m d H1 H2 H3 Hny ltac:(lia) Hm ltac:(lia)).
    rewrite (MakeDay_prev _ _ d Hn). by rewrite Hpn.
Qed.

Lemma navigateMonth_round_trip_witness :
  let st' := navigateMonth Samples.IST dir_prev
               (navigateMonth Samples.IST dir_next (mkNavState december15 None)) in
  getFullYear Samples.IST (currentDate st') = Some 2023 ∧
  getMonth Samples.IST (currentDate st') = Some 11 ∧
  getDate Samples.IST (currentDate st') = Some 15.
Proof.
  apply (navigateMonth_round_trip Samples.IST (mkNavState december15 None)
           2023 11 15 IST_stable);
    [lia | reflexivity | reflexivity | reflexivity | lia | discriminate].
Defined.

End NavFacts.

(** ** Dots, badges and the selected day *)

Module CalendarUiFacts.
Import JsDate Calendar CalendarNav CalendarUi Spec AggregatorFacts GridFacts.

(** Every element of the array of [renderCalendar] is an empty cell or the
    cell of a day, built from the key of the day. *)
Lemma renderCalendar_cells (LocalTZA : Z → bool → Z) (currentDate : Date)
    (selectedDate : option string) (appointments : list Appointment) (e : DayElement) :
  e ∈ renderCalendar LocalTZA currentDate selectedDate appointments →
  (∃ i, e = EmptyCell i) ∨
  ∃ day,
    let dateString :=
      formatDate (getFullYear LocalTZA currentDate) (getMonth LocalTZA currentDate)
        (Some day) in
    e = DayCell day dateString (hasAppointment appointments dateString)
          (getAppointmentStatus appointments dateString)
          (bool_decide (selectedDate = Some dateString)).
Proof.
  unfold renderCalendar, Js.forLt, Js.forLe.
  destruct (getFirstDayOfMonth _ _), (getDaysInMonth _ _);
    rewrite ?push_loop, ?app_nil_l, ?elem_of_app, ?list_elem_of_fmap;
    try (by intros ?%elem_of_nil).
  - intros [(i & -> & _) | (day & -> & _)]; [left | right]; by eexists.
  - intros (i & -> & _). left. by eexists.
  - intros (day & -> & _). right. by eexists.
Qed.

Lemma hasAppointment_false (appointments : list Appointment) (dateString : string) :
  hasAppointment appointments dateString = false
  ↔ getAppointmentsForDate appointments dateString = [].
Proof.
  unfold hasAppointment.
  destruct (getAppointmentsForDate appointments dateString); simpl; split; done.
Qed.

(** X6: in the grid, a day has no dot exactly when it has no appointment or
    is the selected day; a dot that is drawn has a colour of the legend, the
    one of the status of the day: green for completed, yellow for scheduled,
    purple for mixed, red for cancelled. *)
Theorem dots_follow_legend (LocalTZA : Z → bool → Z) (currentDate : Date)
    (selectedDate : option string) (appointments : list Appointment)
    (day : Z) (dateString : string) (hasApt : bool) (status : option string)
    (isSelected : bool) :
  let cell := DayCell day dateString hasApt status isSelected in
  cell ∈ renderCalendar LocalTZA currentDate selectedDate appointments →
  (appointmentDot cell = None
   ↔ getAppointmentsForDate appointments dateString = [] ∨
     selectedDate = Some dateString) ∧
  ∀ colour,
    appointmentDot cell = Some colour →
    colour ∈ legend.*1 ∧
    (status, colour) ∈ [ (Some "completed", "#10B981"); (Some "scheduled", "#F59E0B");
                         (Some "mixed", "#8B5CF6"); (Some "cancelled", "#EF4444") ].
Proof.
  intros cell Hin. subst cell.
  apply renderCalendar_cells in Hin as [(i & Hi) | (day' & Hcell)]; [done|].
  simpl in Hcell. injection Hcell as -> Hds Happt Hstatus Hsel.
  rewrite <- Hds in Happt, Hstatus, Hsel. clear Hds.
  unfold appointmentDot. subst hasApt isSelected. split.
  - destruct (hasAppointment appointments dateString) eqn:Hhas.
    + destruct (bool_decide_reflect (selectedDate = Some dateString)) as [Heq|Hne]; simpl.
      * split; [by right | done].
      * split; [done|]. intros [Hnil | Heq]; [|done].
        apply hasAppointment_false in Hnil. congruence.
    + simpl. split; [|done]. intros _. left. by apply hasAppointment_false.
  - intros colour.
    destruct (hasAppointment appointments dateString) eqn:Hhas; [|done].
    destruct (bool_decide _); [done|]. simpl. intros [= <-].
    assert (Hne : getAppointmentsForDate appointments dateString ≠ []).
    { intros Hnil. apply hasAppointment_false in Hnil. congruence. }
    subst status. unfold getAppointmentStatus.
    destruct (length _ =? 0)%nat eqn:Hlen.
    { apply length_eqb_0 in Hlen. done. }
    destruct (existsb _ _), (existsb _ _); simpl; split; elem_of_list.
Qed.

Lemma dots_follow_legend_witness :
  DayCell 15 "2025-09-15" true (Some "mixed") false
    ∈ renderCalendar Samples.IST Samples.september2025 None Samples.september ∧
  "#8B5CF6" ∈ legend.*1.
Proof.
  assert (Hin : DayCell 15 "2025-09-15" true (Some "mixed") false
                  ∈ renderCalendar Samples.IST Samples.september2025 None
                      Samples.september).
  { apply list_elem_of_lookup. exists 15%nat. vm_compute. reflexivity. }
  split; [exact Hin|].
  apply (proj2 (dots_follow_legend Samples.IST Samples.september2025 None
                  Samples.september 15 "2025-09-15" true (Some "mixed") false Hin)
           "#8B5CF6").
  reflexivity.
Defined.

Lemma existsb_uniform (f : option string → bool) (day : list Appointment)
    (status : option string) :
  day ≠ [] → (∀ apt, apt ∈ day → apt_status apt = status) →
  existsb (λ apt, f (apt_status apt)) day = f status.
Proof.
  intros Hne Hall. destruct day as [|apt day]; [done|]. clear Hne.
  revert apt Hall. induction day as [|apt' day IH]; intros apt Hall.
  - simpl. rewrite (Hall apt) by apply list_elem_of_here. apply orb_false_r.
  - cbn [existsb]. rewrite (Hall apt) by apply list_elem_of_here.
    cbn [existsb] in IH. rewrite IH.
    + apply orb_diag.
    + intros a Ha. apply Hall. by apply list_elem_of_further.
Qed.

(** X7: on a day whose appointments all have the same status, one of the
    four of the data model, the dot of the day in the grid has the colour
    of the badge of that status in the lists under the grid. *)
Theorem uniform_day_dot_is_badge (appointments : list Appointment)
    (dateString status : string) :
  getAppointmentsForDate appointments dateString ≠ [] →
  (∀ apt, apt ∈ getAppointmentsForDate appointments dateString →
          apt_status apt = Some status) →
  status ∈ ["scheduled"; "confirmed"; "completed"; "cancelled"] →
  getAppointmentDotColor (getAppointmentStatus appointments dateString)
  = backgroundColor (getStatusBadgeStyle (Some status)).
Proof.
  intros Hne Hall Hstatus. unfold getAppointmentStatus.
  destruct (length _ =? 0)%nat eqn:Hlen.
  { apply length_eqb_0 in Hlen. done. }
  rewrite (existsb_uniform (λ v, Js.strictEq v "completed") _ _ Hne Hall),
    (existsb_uniform (λ v, Js.strictEq v "scheduled" || Js.strictEq v "confirmed")
       _ _ Hne Hall).
  repeat (apply elem_of_cons in Hstatus as [->|Hstatus]; [reflexivity|]).
  by apply elem_of_nil in Hstatus.
Qed.

Lemma uniform_day_dot_is_badge_witness :
  getAppointmentDotColor (getAppointmentStatus Samples.september "2025-09-16")
  = "#EF4444".
Proof.
  apply (uniform_day_dot_is_badge Samples.september "2025-09-16" "cancelled").
  - vm_compute. discriminate.
  - intros apt Hin. vm_compute in Hin.
    apply elem_of_cons in Hin as [->|Hin]; [reflexivity|].
    by apply elem_of_nil in Hin.
  - elem_of_list.
Defined.

(** A status outside the data model is where the two part: the badge is
    grey, the dot of a day of such appointments red. *)
Example strange_day_badge_and_dot :
  getAppointmentDotColor (getAppointmentStatus Samples.strangeDay "2025-09-15")
  = "#EF4444" ∧
  backgroundColor (getStatusBadgeStyle (Some "no-show")) = "#6B7280".
Proof. split; reflexivity. Qed.

(** X8: pressing a card of the upcoming list selects the day of that
    appointment, and the list of the selected day then contains it. *)
Theorem pressAppointment_shows_it (appointments : list Appointment)
    (Date_parse : string → option Z) (Date_now : Z) (toDateString : Date → string)
    (st : NavState) (appointment : Appointment) :
  appointment ∈ upcomingAppointments appointments Date_parse Date_now toDateString →
  apt_date appointment ≠ "" →
  let st' := pressAppointment appointment st in
  selectedDate st' = Some (apt_date appointment) ∧
  currentDate st' = currentDate st ∧
  appointment ∈ selectedAppointments (selectedDate st') appointments ∧
  ∀ other, other ∈ selectedAppointments (selectedDate st') appointments →
           apt_date other = apt_date appointment.
Proof.
  intros Hin Hdate st'. subst st'. unfold pressAppointment, selectedAppointments.
  cbn [selectedDate currentDate]. rewrite bool_decide_eq_false_2 by done.
  unfold upcomingAppointments in Hin.
  apply (λ H, elem_of_sublist _ _ _ H (sublist_take _ _)) in Hin.
  apply list_elem_of_filter in Hin as [_ Hin].
  repeat split.
  - unfold getAppointmentsForDate. by apply list_elem_of_filter.
  - intros other Hother. unfold getAppointmentsForDate in Hother.
    by apply list_elem_of_filter in Hother as [? _].
Qed.

Lemma pressAppointment_shows_it_witness :
  let apt := Samples.appointment "a3" "2025-09-16" (Some "cancelled") in
  apt ∈ upcomingAppointments Samples.september MoreSamples.parse MoreSamples.now
          MoreSamples.toDateString ∧
  apt ∈ selectedAppointments
          (selectedDate (pressAppointment apt (mkNavState Samples.september2025 None)))
          Samples.september.
Proof.
  intros apt.
  assert (Hin : apt ∈ upcomingAppointments Samples.september MoreSamples.parse
                        MoreSamples.now MoreSamples.toDateString).
  { vm_compute. elem_of_list. }
  split; [exact Hin|].
  apply (pressAppointment_shows_it Samples.september MoreSamples.parse MoreSamples.now
           MoreSamples.toDateString (mkNavState Samples.september2025 None) apt Hin).
  discriminate.
Defined.

End CalendarUiFacts.

(** ** The date keys *)

Module KeyFacts.
Import JsDate Calendar CalendarNav CalendarUi Spec JsDateFacts GridFacts.
Local Open Scope Z_scope.

Lemma digit_inj (a b : Z) :
  0 <= a <= 9 → 0 <= b <= 9 → digit a = digit b → a = b.
Proof.
  intros Ha Hb Heq. unfold digit in Heq.
  apply (f_equal Ascii.nat_of_ascii) in Heq.
  rewrite !Ascii.nat_ascii_embedding in Heq by lia. lia.
Qed.

Lemma twoDigits_inj (a b : Z) :
  0 <= a <= 99 → 0 <= b <= 99 → twoDigits a = twoDigits b → a = b.
Proof.
  intros Ha Hb Heq. unfold twoDigits in Heq. injection Heq as H1 H2.
  apply (f_equal Ascii.nat_of_ascii) in H1, H2. unfold digit in H1, H2.
  rewrite !Ascii.nat_ascii_embedding in H1, H2
    by (Z.div_mod_to_equations; lia).
  Z.div_mod_to_equations. lia.
Qed.

Lemma fourDigits_inj (a b : Z) :
  0 <= a <= 9999 → 0 <= b <= 9999 → fourDigits a = fourDigits b → a = b.
Proof.
  intros Ha Hb Heq. unfold fourDigits in Heq.
  remember (twoDigits (a mod 100)) as ta eqn:Hta.
  remember (twoDigits (b mod 100)) as tb eqn:Htb.
  injection Heq as H1 H2 H34. subst ta tb.
  apply twoDigits_inj in H34; [|Z.div_mod_to_equations; lia..].
  apply (f_equal Ascii.nat_of_ascii) in H1, H2. unfold digit in H1, H2.
  rewrite !Ascii.nat_ascii_embedding in H1, H2
    by (Z.div_mod_to_equations; lia).
  Z.div_mod_to_equations. lia.
Qed.

(** Two dates with the same key are the same date. *)
Lemma dateKey_inj (y m d y' m' d' : Z) :
  0 <= y <= 9999 → 0 <= y' <= 9999 → 0 <= m <= 11 → 0 <= m' <= 11 →
  0 <= d <= 99 → 0 <= d' <= 99 →
  dateKey y m d = dateKey y' m' d' → y = y' ∧ m = m' ∧ d = d'.
Proof.
  intros Hy Hy' Hm Hm' Hd Hd' Heq. unfold dateKey in Heq.
  assert (Hsplit : fourDigits y = fourDigits y' ∧
                   twoDigits (m + 1) = twoDigits (m' + 1) ∧
                   twoDigits d = twoDigits d').
  { unfold fourDigits, twoDigits in *. cbn [String.app] in Heq.
    injection Heq as E1 E2 E3 E4 E5 E6 E7 E8. repeat split; congruence. }
  destruct Hsplit as (H1 & H2 & H3).
  apply fourDigits_inj in H1; [|done..].
  apply twoDigits_inj in H2; [|lia..].
  apply twoDigits_inj in H3; [|done..].
  lia.
Qed.

Lemma dateKey_not_empty (y m d : Z) : dateKey y m d ≠ "".
Proof. unfold dateKey, fourDigits. done. Qed.

(** X9: pressing a day of the grid of a month selects it: when the grid is
    drawn again, that day and no other is drawn selected, and the list of
    the selected day is the list of its appointments. *)
Theorem pressDay_selects (LocalTZA : Z → bool → Z) (st : NavState)
    (appointments : list Appointment) (y m day : Z) (e : DayElement) :
  WellBehavedZone LocalTZA → 1000 <= y <= 9999 →
  getFullYear LocalTZA (currentDate st) = Some y →
  getMonth LocalTZA (currentDate st) = Some m →
  e ∈ renderCalendar LocalTZA (currentDate st) (selectedDate st) appointments →
  dayNumberOf e = Some day →
  let st' := pressDay e st in
  let key := formatDate (Some y) (Some m) (Some day) in
  currentDate st' = currentDate st ∧
  selectedDate st' = Some key ∧
  selectedAppointments (selectedDate st') appointments
  = getAppointmentsForDate appointments key ∧
  ∀ e', e' ∈ renderCalendar LocalTZA (currentDate st') (selectedDate st') appointments →
        (drawnSelected e' = true ↔ dayNumberOf e' = Some day).
Proof.
  intros zone Hy Hyear Hmonth Hin Hday st' key.
  pose proof (getMonth_range LocalTZA _ _ Hmonth) as Hm.
  pose proof (daysInMonth_range y m) as Hdim.
  rewrite (renderCalendar_eq LocalTZA zone _ _ _ y m Hy Hyear Hmonth) in Hin.
  apply elem_of_app in Hin as [Hin | Hin];
    apply list_elem_of_fmap in Hin as (k & -> & Hk); [done|].
  simpl in Hday. injection Hday as ->. apply elem_of_seqZ in Hk.
  subst st'. cbn [pressDay currentDate selectedDate]. fold key.
  assert (Hkey : key = dateKey y m day) by (apply formatDate_dateKey; lia).
  split; [done|]. split; [done|]. split.
  - unfold selectedAppointments. rewrite bool_decide_eq_false_2; [done|].
    rewrite Hkey. apply dateKey_not_empty.
  - intros e' Hin'.
    rewrite (renderCalendar_eq LocalTZA zone _ _ _ y m Hy Hyear Hmonth) in Hin'.
    apply elem_of_app in Hin' as [Hin' | Hin'];
      apply list_elem_of_fmap in Hin' as (k' & -> & Hk'); [done|].
    apply elem_of_seqZ in Hk'. cbn [drawnSelected dayNumberOf].
    rewrite bool_decide_eq_true. split.
    + intros [= Heq]. rewrite Hkey in Heq.
      rewrite (formatDate_dateKey y m k') in Heq by lia.
      apply dateKey_inj in Heq as (_ & _ & ->); [done|lia..].
    + by intros [= ->].
Qed.

Lemma pressDay_selects_witness :
  let st := mkNavState Samples.september2025 None in
  let e := DayCell 15 "2025-09-15" true (Some "mixed") false in
  selectedDate (pressDay e st) = Some "2025-09-15" ∧
  selectedAppointments (selectedDate (pressDay e st)) Samples.september
  = getAppointmentsForDate Samples.september "2025-09-15".
Proof.
  intros st e.
  assert (Hin : e ∈ renderCalendar Samples.IST (currentDate st) (selectedDate st)
                      Samples.september).
  { apply list_elem_of_lookup. exists 15%nat. vm_compute. reflexivity. }
  destruct (pressDay_selects Samples.IST st Samples.september 2025 8 15 e
              IST_zone ltac:(lia) eq_refl eq_refl Hin eq_refl)
    as (_ & Hsel & Hlist & _).
  split; [exact Hsel | exact Hlist].
Defined.

End KeyFacts.

(** ** Loading the appointments *)

Module FetchFacts.
Import Stdlib.Strings.Ascii.
Import JsDate Calendar CalendarFetch JsMore Spec JsDateFacts GridFacts KeyFacts NavFacts.
Local Open Scope Z_scope.

Lemma split_hd (separator : ascii) (a b : string) :
  Forall (λ c, c ≠ separator) (String.list_ascii_of_string a) →
  hd EmptyString (split separator (a +:+ String separator b)) = a.
Proof.
  induction a as [|c a IH]; simpl; intros Hall.
  - by rewrite Ascii.eqb_refl.
  - apply Forall_cons in Hall as [Hc Hall].
    destruct (Ascii.eqb_spec c separator) as [|_]; [done|].
    specialize (IH Hall).
    destruct (split separator (a +:+ String separator b)) as [|piece pieces];
      simpl in *; by subst.
Qed.

Lemma digit_not_T (k : Z) : 0 <= k <= 9 → digit k ≠ "T"%char.
Proof.
  intros Hk Heq. apply (f_equal nat_of_ascii) in Heq. unfold digit in Heq.
  rewrite nat_ascii_embedding in Heq by lia.
  change (nat_of_ascii "T") with 84%nat in Heq. lia.
Qed.

Lemma dateKey_no_T (y m d : Z) :
  0 <= y <= 9999 → 0 <= m <= 11 → 0 <= d <= 99 →
  Forall (λ c, c ≠ "T"%char) (String.list_ascii_of_string (dateKey y m d)).
Proof.
  intros Hy Hm Hd. unfold dateKey, fourDigits, twoDigits.
  cbn [String.app String.list_ascii_of_string].
  repeat constructor; try discriminate;
    apply digit_not_T; Z.div_mod_to_equations; lia.
Qed.

Lemma zeroPadded_fourDigits (y : Z) : 0 <= y <= 9999 → zeroPadded y 4 = fourDigits y.
Proof.
  intros Hy. destruct (Z.lt_ge_cases y 1000).
  - assert (H' : bool_decide (Forall (λ y, zeroPadded y 4 = fourDigits y) (seqZ 0 1000))
                 = true)
      by (vm_compute; reflexivity).
    apply bool_decide_eq_true in H'. rewrite Forall_seqZ in H'. apply H'. lia.
  - unfold zeroPadded. rewrite pretty_fourDigits by lia. reflexivity.
Qed.

(** The ISO string of a date of the years 0 to 9999 starts with the key of
    its UTC date, then a T. *)
Lemma toISOString_dateKey (t : Z) :
  0 <= YearFromTime t <= 9999 →
  ∃ rest,
    toISOString (mkDate (Some t))
    = Some (dateKey (YearFromTime t) (MonthFromTime t) (DateFromTime t)
            +:+ String "T"%char rest).
Proof.
  intros Hy. pose proof (fields_of_time t) as (Hm & Hd & _).
  pose proof (daysInMonth_range (YearFromTime t) (MonthFromTime t)).
  unfold toISOString. cbn [DateValue mbind option_bind].
  destruct (Z.leb_spec 0 (YearFromTime t)), (Z.leb_spec (YearFromTime t) 9999);
    try lia.
  cbn [andb]. rewrite zeroPadded_fourDigits by done.
  unfold zeroPadded at 1 2. rewrite !padStart_twoDigits by lia.
  eexists. unfold dateKey, fourDigits, twoDigits. cbn [String.app]. reflexivity.
Qed.

Section Fetch.
Variable Date_parse : string → option Z.
Variable toLocaleTimeString : Date → string.

Lemma formatAppointment_date (row : AppointmentRow) (t : Z) :
  Date_parse (row_appointment_date row) = Some t →
  0 <= YearFromTime t <= 9999 →
  ∃ apt,
    formatAppointment Date_parse toLocaleTimeString row = Some apt ∧
    apt_id apt = row_id row ∧ apt_status apt = row_status row ∧
    apt_date apt = dateKey (YearFromTime t) (MonthFromTime t) (DateFromTime t).
Proof.
  intros Hparse Hy. unfold formatAppointment. rewrite Hparse.
  destruct (toISOString_dateKey t Hy) as (rest & ->).
  cbn [mbind option_bind]. eexists. split; [reflexivity|].
  cbn [apt_id apt_status apt_date]. split; [done|]. split; [done|].
  pose proof (fields_of_time t) as (Hm & Hd & _).
  pose proof (daysInMonth_range (YearFromTime t) (MonthFromTime t)).
  apply split_hd, dateKey_no_T; lia.
Qed.

Lemma formatAppointment_is_Some (row : AppointmentRow) :
  is_Some (formatAppointment Date_parse toLocaleTimeString row)
  ↔ is_Some (Date_parse (row_appointment_date row)).
Proof.
  unfold formatAppointment, toISOString. cbn [DateValue].
  destruct (Date_parse (row_appointment_date row)); simpl; split;
    intros [? ?]; by eauto.
Qed.
End Fetch.

(** X10: an appointment is filed under the UTC date of its timestamp: for
    a timestamp of the years 1000 to 9999, the [date] of the appointment is
    the key that the grid builds for the year, month and day of the
    timestamp in UTC. *)
Theorem formatAppointment_utc_key (Date_parse : string → option Z)
    (toLocaleTimeString : Date → string) (row : AppointmentRow) (t : Z) :
  Date_parse (row_appointment_date row) = Some t →
  1000 <= YearFromTime t <= 9999 →
  ∃ apt,
    formatAppointment Date_parse toLocaleTimeString row = Some apt ∧
    apt_id apt = row_id row ∧ apt_status apt = row_status row ∧
    apt_date apt
    = formatDate (Some (YearFromTime t)) (Some (MonthFromTime t))
        (Some (DateFromTime t)).
Proof.
  intros Hparse Hy.
  destruct (formatAppointment_date Date_parse toLocaleTimeString row t Hparse
              ltac:(lia)) as (apt & Hapt & Hid & Hstatus & Hdate).
  exists apt. repeat split; try done.
  pose proof (fields_of_time t) as (Hm & Hd & _).
  pose proof (daysInMonth_range (YearFromTime t) (MonthFromTime t)).
  rewrite formatDate_dateKey by lia. done.
Qed.

Lemma formatAppointment_utc_key_witness :
  ∃ apt,
    formatAppointment FetchSamples.parseRow FetchSamples.timeOf FetchSamples.lateRow
    = Some apt ∧
    apt_date apt = "2025-09-14".
Proof.
  destruct (formatAppointment_utc_key FetchSamples.parseRow FetchSamples.timeOf
              FetchSamples.lateRow 1757881800000 eq_refl
              ltac:(vm_compute; split; discriminate))
    as (apt & Hapt & _ & _ & Hdate).
  exists apt. split; [exact Hapt | exact Hdate].
Defined.

(** X11: the appointment is filed under the key of its local day, the one
    of the cell of the grid it belongs to, exactly when its timestamp is on
    the same day in UTC and in local time. *)
Theorem filed_under_local_day (LocalTZA : Z → bool → Z)
    (Date_parse : string → option Z) (toLocaleTimeString : Date → string)
    (row : AppointmentRow) (t : Z) (apt : Appointment) :
  Date_parse (row_appointment_date row) = Some t →
  1000 <= YearFromTime t <= 9999 →
  1000 <= YearFromTime (LocalTime LocalTZA t) <= 9999 →
  formatAppointment Date_parse toLocaleTimeString row = Some apt →
  let date := mkDate (Some t) in
  apt_date apt
  = formatDate (getFullYear LocalTZA date) (getMonth LocalTZA date)
      (getDate LocalTZA date)
  ↔ JsDate.Day (LocalTime LocalTZA t) = JsDate.Day t.
Proof.
  intros Hparse Hy Hly Hapt date.
  destruct (formatAppointment_date Date_parse toLocaleTimeString row t Hparse
              ltac:(lia)) as (apt' & Hapt' & _ & _ & Hdate).
  rewrite Hapt in Hapt'. injection Hapt' as <-. rewrite Hdate.
  subst date. unfold getFullYear, getMonth, getDate. cbn [DateValue mbind option_bind].
  set (lt := LocalTime LocalTZA t) in *.
  pose proof (fields_of_time t) as (Hm & Hd & Hday).
  pose proof (fields_of_time lt) as (Hlm & Hld & Hlday).
  pose proof (daysInMonth_range (YearFromTime t) (MonthFromTime t)).
  pose proof (daysInMonth_range (YearFromTime lt) (MonthFromTime lt)).
  rewrite formatDate_dateKey by lia. split.
  - intros Heq. apply dateKey_inj in Heq as (H1 & H2 & H3); [|lia..].
    rewrite Hday, Hlday. by rewrite H1, H2, H3.
  - intros Heq.
    by rewrite (YearFromTime_Day _ _ Heq), (MonthFromTime_Day _ _ Heq),
      (DateFromTime_Day _ _ Heq).
Qed.

Lemma filed_under_local_day_witness :
  ∃ apt,
    formatAppointment FetchSamples.parseRow FetchSamples.timeOf FetchSamples.lateRow
    = Some apt ∧
    getDate Samples.IST (mkDate (Some 1757881800000)) = Some 15 ∧
    apt_date apt
    ≠ formatDate (getFullYear Samples.IST (mkDate (Some 1757881800000)))
        (getMonth Samples.IST (mkDate (Some 1757881800000)))
        (getDate Samples.IST (mkDate (Some 1757881800000))).
Proof.
  eexists. split; [reflexivity|]. split; [reflexivity|].
  intros Heq.
  apply (filed_under_local_day Samples.IST FetchSamples.parseRow FetchSamples.timeOf
           FetchSamples.lateRow 1757881800000 _ eq_refl
           ltac:(vm_compute; split; discriminate)
           ltac:(vm_compute; split; discriminate) eq_refl) in Heq.
  vm_compute in Heq. discriminate Heq.
Defined.

(** X12: the list is loaded whole or not at all: when the parser reads the
    date of every row, the appointments are the rows, one for one and in
    their order; when it cannot read the date of one row, the list the
    screen had stays, whatever the other rows. *)
Theorem fetchAppointments_all_or_nothing (Date_parse : string → option Z)
    (toLocaleTimeString : Date → string) (data : list AppointmentRow)
    (appointments : list Appointment) :
  let loaded :=
    fetchAppointments Date_parse toLocaleTimeString (ResponseData (Some data))
      appointments in
  (Forall (λ row, is_Some (Date_parse (row_appointment_date row))) data →
   apt_id <$> loaded = row_id <$> data ∧
   apt_status <$> loaded = row_status <$> data) ∧
  (Exists (λ row, Date_parse (row_appointment_date row) = None) data →
   loaded = appointments).
Proof.
  intros loaded. subst loaded. unfold fetchAppointments. split.
  - intros Hall.
    assert (Hsome : is_Some (mapM (formatAppointment Date_parse toLocaleTimeString) data)).
    { apply mapM_is_Some. eapply Forall_impl; [exact Hall|].
      intros row Hrow. by apply formatAppointment_is_Some. }
    destruct Hsome as [formatted Hformatted]. rewrite Hformatted.
    apply mapM_Some in Hformatted.
    induction Hformatted as [|row apt rows apts Hrow _ IH]; [done|].
    apply Forall_cons in Hall as [_ Hall]. destruct (IH Hall) as [IH1 IH2].
    rewrite !fmap_cons, IH1, IH2.
    unfold formatAppointment in Hrow.
    destruct (toISOString _); [|done]. simpl in Hrow. by injection Hrow as <-.
  - intros Hex.
    assert (Hnone : mapM (formatAppointment Date_parse toLocaleTimeString) data = None).
    { apply mapM_None. eapply Exists_impl; [exact Hex|].
      intros row Hrow. simpl in Hrow. unfold formatAppointment, toISOString.
      cbn [DateValue]. by rewrite Hrow. }
    by rewrite Hnone.
Qed.

Lemma fetchAppointments_all_or_nothing_witness :
  fetchAppointments FetchSamples.parseRow FetchSamples.timeOf
    (ResponseData (Some [FetchSamples.lateRow; FetchSamples.brokenRow;
                         FetchSamples.morningRow]))
    Samples.september
  = Samples.september.
Proof.
  apply (fetchAppointments_all_or_nothing FetchSamples.parseRow FetchSamples.timeOf
           [FetchSamples.lateRow; FetchSamples.brokenRow; FetchSamples.morningRow]
           Samples.september).
  apply Exists_cons_tl, Exists_cons_hd. reflexivity.
Defined.

End FetchFacts.

(** ** The reports *)

Module ReportFacts.
Import Stdlib.Strings.Ascii.
Import JsMore Reports ReportSamples.

Lemma split_segment (separator : ascii) (a : string) :
  Forall (λ c, c ≠ separator) (String.list_ascii_of_string a) →
  split separator a = [a].
Proof.
  induction a as [|c a IH]; simpl; intros Hall; [done|].
  apply Forall_cons in Hall as [Hc Hall].
  destruct (Ascii.eqb_spec c separator) as [|_]; [done|].
  by rewrite (IH Hall).
Qed.

Lemma split_app (separator : ascii) (a b : string) :
  Forall (λ c, c ≠ separator) (String.list_ascii_of_string a) →
  split separator (a +:+ String separator b) = a :: split separator b.
Proof.
  induction a as [|c a IH]; simpl; intros Hall.
  - by rewrite Ascii.eqb_refl.
  - apply Forall_cons in Hall as [Hc Hall].
    destruct (Ascii.eqb_spec c separator) as [|_]; [done|].
    by rewrite (IH Hall).
Qed.

(** Splitting at the slashes undoes joining segments with slashes. *)
Lemma split_join (parts : list string) :
  parts ≠ [] → Forall segment parts → split "/"%char (join "/" parts) = parts.
Proof.
  intros Hne Hall. destruct parts as [|part parts]; [done|]. clear Hne.
  revert part Hall. induction parts as [|next parts IH]; intros part Hall.
  - apply Forall_cons in Hall as [Hpart _]. by apply split_segment.
  - apply Forall_cons in Hall as [Hpart Hall].
    change (join "/" (part :: next :: parts))
      with (part +:+ String "/"%char (join "/" (next :: parts))).
    rewrite split_app by done. by rewrite IH.
Qed.

Lemma findIndexFrom_found {A} (test : A → bool) (i : Z) (pre post : list A) (x : A) :
  Forall (λ y, test y = false) pre → test x = true →
  findIndexFrom test i (pre ++ x :: post) = (i + Z.of_nat (length pre))%Z.
Proof.
  intros Hpre Hx. revert i. induction Hpre as [|y pre Hy _ IH]; intros i; simpl.
  - rewrite Hx. lia.
  - rewrite Hy, IH. lia.
Qed.

Lemma findIndexFrom_absent {A} (test : A → bool) (i : Z) (l : list A) :
  Forall (λ y, test y = false) l → findIndexFrom test i l = (-1)%Z.
Proof.
  intros Hl. revert i. induction Hl as [|y l Hy _ IH]; intros i; simpl; [done|].
  by rewrite Hy, IH.
Qed.

Lemma not_bucket (parts : list string) :
  "medical-reports" ∉ parts →
  Forall (λ part, bool_decide (part = "medical-reports") = false) parts.
Proof.
  intros Hnot. apply Forall_forall. intros part Hin.
  apply bool_decide_eq_false. intros ->. done.
Qed.

(** X13: for a stored path that is a URL whose path has the segment
    [medical-reports] with something after it, the storage is asked to sign
    what comes after the first such segment: the path inside the bucket. *)
Theorem getSignedUrl_inside_bucket (URL_pathname createSignedUrl : string → option string)
    (filePath : string) (before after : list string) :
  String.prefix "http" filePath = true →
  URL_pathname filePath = Some (join "/" (before ++ "medical-reports" :: after)) →
  Forall segment before → Forall segment after →
  "medical-reports" ∉ before → after ≠ [] →
  actualFilePath URL_pathname filePath = Some (join "/" after) ∧
  getSignedUrl URL_pathname createSignedUrl filePath = createSignedUrl (join "/" after).
Proof.
  intros Hhttp Hpath Hbefore Hafter Hnot Hne.
  assert (Hactual : actualFilePath URL_pathname filePath = Some (join "/" after)).
  { unfold actualFilePath. rewrite Hhttp, Hpath. cbn [mbind option_bind].
    rewrite split_join.
    - unfold findIndex.
      rewrite (findIndexFrom_found _ 0 before after "medical-reports")
        by (by apply not_bucket || done).
      rewrite length_app. cbn [length].
      destruct after as [|part after]; [done|].
      replace (negb (0 + Z.of_nat (length before) =? -1)%Z) with true
        by (symmetry; apply negb_true_iff, Z.eqb_neq; lia).
      replace (0 + Z.of_nat (length before)
               <? Z.of_nat (length before + S (length (part :: after))) - 1)%Z
        with true by (symmetry; apply Z.ltb_lt; simpl; lia).
      cbn [andb]. unfold sliceFrom.
      replace (Z.to_nat (0 + Z.of_nat (length before) + 1))
        with (length (before ++ ["medical-reports"])) by (rewrite length_app; simpl; lia).
      replace (before ++ "medical-reports" :: part :: after)
        with ((before ++ ["medical-reports"]) ++ part :: after)
        by (by rewrite <- app_assoc).
      by rewrite drop_app_length.
    - by destruct before.
    - apply Forall_app. split; [done|]. constructor; [|done].
      unfold segment. simpl. repeat constructor; discriminate. }
  split; [done|]. unfold getSignedUrl. by rewrite Hactual.
Qed.

Lemma getSignedUrl_inside_bucket_witness :
  getSignedUrl pathnameOf sign
    "https://example.supabase.co/storage/v1/object/public/medical-reports/patient-1/blood.pdf"
  = Some "https://signed.example/patient-1/blood.pdf".
Proof.
  apply (getSignedUrl_inside_bucket pathnameOf sign
           "https://example.supabase.co/storage/v1/object/public/medical-reports/patient-1/blood.pdf"
           [""; "storage"; "v1"; "object"; "public"] ["patient-1"; "blood.pdf"]).
  - reflexivity.
  - reflexivity.
  - unfold segment. repeat constructor; discriminate.
  - unfold segment. repeat constructor; discriminate.
  - intros Hin. repeat (apply elem_of_cons in Hin as [Hin|Hin]; [discriminate Hin|]).
    by apply elem_of_nil in Hin.
  - discriminate.
Defined.

(** X14: the stored path is signed as it is when it does not start with
    http, and when it is a URL in whose path [medical-reports] is no segment
    or only the last one; a URL that [new URL] rejects is never signed. *)
Theorem getSignedUrl_falls_back (URL_pathname createSignedUrl : string → option string)
    (filePath : string) :
  (String.prefix "http" filePath = false →
   getSignedUrl URL_pathname createSignedUrl filePath = createSignedUrl filePath) ∧
  (String.prefix "http" filePath = true → URL_pathname filePath = None →
   getSignedUrl URL_pathname createSignedUrl filePath = None) ∧
  (∀ init last,
     String.prefix "http" filePath = true →
     URL_pathname filePath = Some (join "/" (init ++ [last])) →
     Forall segment (init ++ [last]) → "medical-reports" ∉ init →
     getSignedUrl URL_pathname createSignedUrl filePath = createSignedUrl filePath).
Proof.
  unfold getSignedUrl, actualFilePath. split; [|split].
  - by intros ->.
  - by intros -> ->.
  - intros init last -> -> Hsegments Hnot. cbn [mbind option_bind].
    rewrite split_join; [|by destruct init|done].
    unfold findIndex.
    destruct (bool_decide_reflect (last = "medical-reports")) as [->|Hlast].
    + rewrite (findIndexFrom_found _ 0 init [] "medical-reports")
        by (by apply not_bucket || done).
      rewrite length_app. cbn [length].
      replace (0 + Z.of_nat (length init) <? Z.of_nat (length init + 1) - 1)%Z
        with false by (symmetry; apply Z.ltb_ge; lia).
      by rewrite andb_false_r.
    + rewrite findIndexFrom_absent; [done|].
      apply not_bucket. rewrite elem_of_app, list_elem_of_singleton.
      intros [Hin | Heq]; [done | by apply Hlast].
Qed.

Lemma getSignedUrl_falls_back_witness :
  getSignedUrl pathnameOf sign "patient-1/blood.pdf"
  = sign "patient-1/blood.pdf".
Proof.
  apply (getSignedUrl_falls_back pathnameOf sign "patient-1/blood.pdf").
  reflexivity.
Defined.


(** The sample list after "Mark Reviewed" on its first report. *)
Example review_first_report :
  rep_status <$> handleReviewReport false "2025-09-15T06:00:00.000Z" "rep-1"
                   ReportSamples.reports
  = ["reviewed"; "urgent"; "pending"].
Proof. reflexivity. Qed.

End ReportFacts.

(** ** The roster and its cards *)

Module RosterFacts.
Import Patients PatientsUi Spec PatientFacts.

Lemma pt_id_patientsArrayOf (Date_parse : string → option Z)
    (l : list Prescription) (patientMap : gmap string Patient) :
  grouped l patientMap →
  pt_id <$> patientsArrayOf Date_parse patientMap = (map_to_list patientMap).*1.
Proof.
  intros Hgrouped. unfold patientsArrayOf.
  rewrite <- !list_fmap_compose. apply list_fmap_ext.
  intros i [patientId patient] Hi. simpl.
  apply list_elem_of_lookup_2, elem_of_map_to_list in Hi.
  specialize (Hgrouped patientId). rewrite Hi in Hgrouped. tauto.
Qed.

(** The roster of well-formed prescriptions: the map of the loop, turned
    into the array. *)
Lemma roster_of_wellFormed (Date_parse : string → option Z)
    (prescriptions : list Prescription) (st : ScreenState) :
  Forall wellFormed prescriptions →
  ∃ patientMap,
    groupByPatient prescriptions = Some patientMap ∧
    grouped prescriptions patientMap ∧
    patients (fetchPatientsWithPrescriptions Date_parse
                (ResponseData prescriptions) st)
    = patientsArrayOf Date_parse patientMap.
Proof.
  intros Hwf.
  destruct (groupByPatient_grouped prescriptions Hwf) as (patientMap & Hgroup & Hgrouped).
  exists patientMap. split; [done|]. split; [done|].
  unfold fetchPatientsWithPrescriptions. by rewrite Hgroup.
Qed.

Lemma roster_ids (Date_parse : string → option Z)
    (prescriptions : list Prescription) (st : ScreenState) :
  Forall wellFormed prescriptions →
  let roster :=
    patients (fetchPatientsWithPrescriptions Date_parse
                (ResponseData prescriptions) st) in
  NoDup (pt_id <$> roster) ∧
  ∀ patientId, patientId ∈ pt_id <$> roster ↔ patientId ∈ rx_patient_id <$> prescriptions.
Proof.
  intros Hwf roster.
  destruct (roster_of_wellFormed Date_parse prescriptions st Hwf)
    as (patientMap & _ & Hgrouped & Hroster).
  subst roster. rewrite Hroster, (pt_id_patientsArrayOf _ _ _ Hgrouped). split.
  - apply NoDup_fst_map_to_list.
  - intros patientId. specialize (Hgrouped patientId). split.
    + intros ([k patient] & -> & Hin)%list_elem_of_fmap.
      apply elem_of_map_to_list in Hin. simpl in *.
      rewrite Hin in Hgrouped. tauto.
    + intros Hin. destruct (patientMap !! patientId) as [patient|] eqn:Hlookup; [|done].
      apply list_elem_of_fmap. exists (patientId, patient).
      split; [done|]. by apply elem_of_map_to_list.
Qed.

Lemma filter_none {A} (P : A → Prop) `{∀ x, Decision (P x)} (l : list A) :
  (∀ z, z ∈ l → ¬ P z) → filter P l = [].
Proof.
  induction l as [|y l IH]; [done|]. intros Hall.
  rewrite filter_cons, decide_False by (apply Hall, list_elem_of_here).
  apply IH. intros z Hz. apply Hall. by apply list_elem_of_further.
Qed.

Lemma filter_unique {A B} `{EqDecision B} (f : A → B) (l : list A) (x : A) :
  NoDup (f <$> l) → x ∈ l → filter (λ y, f y = f x) l = [x].
Proof.
  induction l as [|y l IH]; [by intros _ ?%elem_of_nil|].
  rewrite fmap_cons, NoDup_cons. intros [Hy Hnodup] Hin.
  rewrite filter_cons. apply elem_of_cons in Hin as [->|Hin].
  - rewrite decide_True by done. f_equal.
    apply filter_none. intros z Hz Heq.
    apply Hy. rewrite <- Heq. apply list_elem_of_fmap. by exists z.
  - rewrite decide_False; [by apply IH|].
    intros Heq. apply Hy. rewrite Heq. apply list_elem_of_fmap. by exists x.
Qed.

(** X16: on the roster of a response, pressing "History" on a patient
    whose history is closed opens the history of that patient and of no
    other, whichever card was open before; pressing it again closes every
    history. *)
Theorem handleHistoryPress_one_card (Date_parse : string → option Z)
    (prescriptions : list Prescription) (st : ScreenState)
    (patient : Patient) (expandedHistory : option string) :
  Forall wellFormed prescriptions →
  let roster :=
    patients (fetchPatientsWithPrescriptions Date_parse
                (ResponseData prescriptions) st) in
  patient ∈ roster →
  expandedHistory ≠ Some (pt_id patient) →
  let pressed := handleHistoryPress expandedHistory (pt_id patient) in
  filter (λ p, showsHistory pressed p = true) roster = [patient] ∧
  filter (λ p, showsHistory (handleHistoryPress pressed (pt_id patient)) p = true)
    roster = [].
Proof.
  intros Hwf roster Hin Hclosed pressed.
  destruct (roster_ids Date_parse prescriptions st Hwf) as [Hnodup _].
  fold roster in Hnodup.
  assert (Hpressed : pressed = Some (pt_id patient)).
  { subst pressed. unfold handleHistoryPress. by rewrite bool_decide_eq_false_2. }
  rewrite Hpressed. split.
  - rewrite <- (filter_unique pt_id roster patient Hnodup Hin).
    apply list_filter_iff. intros p. unfold showsHistory.
    rewrite bool_decide_eq_true. split; [by intros [= ->] | by intros ->].
  - unfold handleHistoryPress. rewrite bool_decide_eq_true_2 by done.
    apply filter_none. intros p _. unfold showsHistory.
    by rewrite bool_decide_eq_false_2.
Qed.

Lemma handleHistoryPress_one_card_witness :
  let roster :=
    patients (fetchPatientsWithPrescriptions Samples.parse
                (ResponseData Samples.prescriptions) Samples.emptyScreen) in
  ∃ patient,
    patient ∈ roster ∧ pt_id patient = "patient-2" ∧
    filter (λ p, showsHistory (handleHistoryPress (Some "patient-1") "patient-2") p = true)
      roster = [patient].
Proof.
  intros roster.
  assert (Hex : ∃ patient, patient ∈ roster ∧ pt_id patient = "patient-2").
  { assert (Hin : "patient-2" ∈ pt_id <$> roster).
    { apply (roster_ids Samples.parse Samples.prescriptions Samples.emptyScreen
               sample_prescriptions_wellFormed).
      vm_compute. apply list_elem_of_further, list_elem_of_here. }
    apply list_elem_of_fmap in Hin as (patient & Hid & Hin). by exists patient. }
  destruct Hex as (patient & Hin & Hid). exists patient.
  split; [exact Hin|]. split; [exact Hid|].
  rewrite <- Hid.
  apply (handleHistoryPress_one_card Samples.parse Samples.prescriptions
           Samples.emptyScreen patient (Some "patient-1")
           sample_prescriptions_wellFormed Hin).
  rewrite Hid. discriminate.
Defined.

(** X17: the number of patients in the header of the roster is the number
    of distinct patient ids among the prescriptions. *)
Theorem roster_counts_patients (Date_parse : string → option Z)
    (prescriptions : list Prescription) (st : ScreenState) :
  Forall wellFormed prescriptions →
  length (patients (fetchPatientsWithPrescriptions Date_parse
                      (ResponseData prescriptions) st))
  = length (remove_dups (rx_patient_id <$> prescriptions)).
Proof.
  intros Hwf.
  destruct (roster_ids Date_parse prescriptions st Hwf) as [Hnodup Hids].
  rewrite <- (length_fmap pt_id). apply Permutation_length.
  apply NoDup_Permutation; [done | apply NoDup_remove_dups |].
  intros patientId. by rewrite Hids, elem_of_remove_dups.
Qed.

Lemma roster_counts_patients_witness :
  length (patients (fetchPatientsWithPrescriptions Samples.parse
                      (ResponseData Samples.prescriptions) Samples.emptyScreen))
  = 2.
Proof.
  apply (roster_counts_patients Samples.parse Samples.prescriptions
           Samples.emptyScreen sample_prescriptions_wellFormed).
Defined.

Lemma prescriptionsOf_snoc (patientId : string) (l : list Prescription)
    (rx : Prescription) :
  prescriptionsOf patientId (l ++ [rx])
  = prescriptionsOf patientId l
    ++ (if decide (rx_patient_id rx = patientId) then [rx] else []).
Proof.
  unfold prescriptionsOf. rewrite filter_app, filter_cons, filter_nil.
  by destruct (decide _).
Qed.

Lemma head_app_Some {A} (l k : list A) (x : A) :
  head l = Some x → head (l ++ k) = Some x.
Proof. by destruct l. Qed.

Lemma addPrescription_headed (l : list Prescription)
    (patientMap patientMap' : gmap string Patient) (rx : Prescription) :
  grouped l patientMap → headed l patientMap →
  addPrescription patientMap rx = Some patientMap' →
  headed (l ++ [rx]) patientMap'.
Proof.
  intros Hgrouped Hheaded. unfold addPrescription, getProperty.
  pose proof (Hgrouped (rx_patient_id rx)) as Hhere.
  destruct (patientMap !! rx_patient_id rx) as [patient|] eqn:Hlookup.
  - simpl. rewrite Hlookup. intros [= <-] patientId p.
    destruct (decide (patientId = rx_patient_id rx)) as [->|Hne].
    + rewrite lookup_insert_eq. intros [= <-]. simpl.
      destruct (Hheaded _ _ Hlookup) as (rx0 & pd & Hhead & Husers & Hvisit & Hname).
      exists rx0, pd. rewrite prescriptionsOf_snoc.
      split; [by apply head_app_Some | done].
    + rewrite lookup_insert_ne by done. intros Hp.
      destruct (Hheaded _ _ Hp) as (rx0 & pd & Hhead & Hrest).
      exists rx0, pd. rewrite prescriptionsOf_snoc.
      split; [by apply head_app_Some | done].
  - destruct (bool_decide _) eqn:Hinherited.
    { simpl. by rewrite Hlookup. }
    destruct (rx_users rx) as [patientData|] eqn:Husers; [|done]. simpl.
    rewrite lookup_insert_eq. intros [= <-]. rewrite insert_insert_eq.
    intros patientId p.
    destruct (decide (patientId = rx_patient_id rx)) as [->|Hne].
    + rewrite lookup_insert_eq. intros [= <-]. simpl.
      exists rx, patientData. rewrite prescriptionsOf_snoc, decide_True by done.
      unfold prescriptionsOf. by rewrite (filter_absent _ _ Hhere).
    + rewrite lookup_insert_ne by done. intros Hp.
      destruct (Hheaded _ _ Hp) as (rx0 & pd & Hhead & Hrest).
      exists rx0, pd. rewrite prescriptionsOf_snoc.
      split; [by apply head_app_Some | done].
Qed.

Lemma groupByPatient_headed (l : list Prescription) (patientMap : gmap string Patient) :
  Forall wellFormed l → groupByPatient l = Some patientMap → headed l patientMap.
Proof.
  revert patientMap. induction l as [|rx l IH] using rev_ind; intros patientMap Hl.
  - intros [= <-] patientId patient. by rewrite lookup_empty.
  - apply Forall_app in Hl as [Hl Hrx]. apply Forall_inv in Hrx.
    destruct (groupByPatient_grouped l Hl) as (m & Hfold & Hgrouped).
    unfold groupByPatient in *. rewrite foldl_snoc, Hfold. cbn [mbind option_bind].
    intros Hadd. eapply addPrescription_headed; [done | by apply IH | done].
Qed.

(** X18: the last visit and the name on the card of a patient are those of
    the first prescription of that patient in the response, the newest one
    in the order of the query. *)
Theorem lastVisit_is_first_prescription (Date_parse : string → option Z)
    (prescriptions : list Prescription) (st : ScreenState) (patient : Patient) :
  Forall wellFormed prescriptions →
  patient ∈ patients (fetchPatientsWithPrescriptions Date_parse
                        (ResponseData prescriptions) st) →
  ∃ rx patientData,
    head (prescriptionsOf (pt_id patient) prescriptions) = Some rx ∧
    rx_users rx = Some patientData ∧
    pt_lastVisit patient = rx_created_at rx ∧
    pt_name patient = pd_name patientData.
Proof.
  intros Hwf Hin.
  destruct (roster_of_wellFormed Date_parse prescriptions st Hwf)
    as (patientMap & Hgroup & Hgrouped & Hroster).
  rewrite Hroster in Hin. unfold patientsArrayOf in Hin.
  apply list_elem_of_fmap in Hin as (p & -> & Hin).
  apply list_elem_of_fmap in Hin as ([patientId p'] & -> & Hin).
  apply elem_of_map_to_list in Hin. simpl.
  pose proof (groupByPatient_headed _ _ Hwf Hgroup _ _ Hin) as Hhead.
  specialize (Hgrouped patientId). rewrite Hin in Hgrouped.
  destruct Hgrouped as (-> & _ & _). done.
Qed.

Lemma lastVisit_is_first_prescription_witness :
  ∃ patient,
    patient ∈ patients (fetchPatientsWithPrescriptions Samples.parse
                          (ResponseData Samples.prescriptions) Samples.emptyScreen) ∧
    pt_id patient = "patient-1" ∧
    pt_lastVisit patient = "2025-09-01T10:00:00Z".
Proof.
  assert (Hin : "patient-1"
                  ∈ pt_id <$> patients (fetchPatientsWithPrescriptions Samples.parse
                                          (ResponseData Samples.prescriptions)
                                          Samples.emptyScreen)).
  { apply (roster_ids Samples.parse Samples.prescriptions Samples.emptyScreen
             sample_prescriptions_wellFormed).
    vm_compute. apply list_elem_of_here. }
  apply list_elem_of_fmap in Hin as (patient & Hid & Hin).
  exists patient. split; [exact Hin|]. split; [by symmetry|].
  destruct (lastVisit_is_first_prescription Samples.parse Samples.prescriptions
              Samples.emptyScreen patient sample_prescriptions_wellFormed Hin)
    as (rx & pd & Hhead & _ & Hvisit & _).
  rewrite <- Hid in Hhead. vm_compute in Hhead. injection Hhead as <-.
  exact Hvisit.
Defined.

(** The loop goes on while its callback returns, and stops at the first
    exception. *)
Lemma groupByPatient_app (l1 l2 : list Prescription) :
  groupByPatient (l1 ++ l2)
  = foldl (λ acc prescription, patientMap ← acc; addPrescription patientMap prescription)
      (groupByPatient l1) l2.
Proof. unfold groupByPatient. apply foldl_app. Qed.

Lemma foldl_thrown (l : list Prescription) :
  foldl (λ acc prescription, patientMap ← acc; addPrescription patientMap prescription)
    None l = None.
Proof. induction l as [|rx l IH]; [done|]. simpl. exact IH. Qed.

(** X19: the first prescription of a patient needs its [users] row and an
    id that is not the name of an inherited property: when one such
    prescription lacks either, the exception loses the whole response and
    the roster stays as it was.  A later prescription of a patient already
    met is taken even without its [users] row. *)
Theorem one_bad_row_loses_the_roster (Date_parse : string → option Z)
    (before after : list Prescription) (rx : Prescription) (st : ScreenState) :
  Forall wellFormed before →
  (rx_patient_id rx ∉ rx_patient_id <$> before →
   rx_users rx = None ∨ rx_patient_id rx ∈ ObjectPrototype_properties →
   patients (fetchPatientsWithPrescriptions Date_parse
               (ResponseData (before ++ rx :: after)) st)
   = patients st) ∧
  (rx_patient_id rx ∈ rx_patient_id <$> before →
   ∃ patientMap patient,
     groupByPatient (before ++ [rx]) = Some patientMap ∧
     patientMap !! rx_patient_id rx = Some patient ∧
     last (pt_history patient) = Some (historyEntryOf rx)).
Proof.
  intros Hwf.
  destruct (groupByPatient_grouped before Hwf) as (patientMap & Hgroup & Hgrouped).
  pose proof (Hgrouped (rx_patient_id rx)) as Hhere. split.
  - intros Hnew Hbad.
    destruct (patientMap !! rx_patient_id rx) as [patient|] eqn:Hlookup.
    { destruct Hhere as (_ & _ & Hin). done. }
    assert (Hthrow : addPrescription patientMap rx = None).
    { unfold addPrescription, getProperty. rewrite Hlookup.
      destruct (bool_decide_reflect (rx_patient_id rx ∈ ObjectPrototype_properties))
        as [Hin|Hnot].
      - simpl. by rewrite Hlookup.
      - destruct Hbad as [-> | Hin]; done. }
    unfold fetchPatientsWithPrescriptions.
    rewrite groupByPatient_app, Hgroup. simpl. rewrite Hthrow.
    by rewrite foldl_thrown.
  - intros Hknown.
    destruct (patientMap !! rx_patient_id rx) as [patient|] eqn:Hlookup; [|done].
    rewrite groupByPatient_app, Hgroup. simpl.
    unfold addPrescription, getProperty. rewrite Hlookup. simpl. rewrite Hlookup.
    eexists _, _. split; [reflexivity|]. rewrite lookup_insert_eq.
    split; [reflexivity|]. simpl. apply last_snoc.
Qed.

Lemma one_bad_row_loses_the_roster_witness :
  ∃ patientMap patient,
    groupByPatient newestFirst = Some patientMap ∧
    patientMap !! "patient-1" = Some patient ∧
    he_id <$> last (pt_history patient) = Some "rx1".
Proof.
  destruct (one_bad_row_loses_the_roster Samples.parse
              [Samples.prescription "rx3" "patient-1" "2025-09-05T10:00:00Z";
               Samples.prescription "rx2" "patient-2" "2025-09-03T10:00:00Z"]
              []
              (mkPrescription "rx1" "patient-1" "2025-09-01T10:00:00Z"
                 None None None None)
              Samples.emptyScreen) as [_ Hknown].
  { repeat constructor; try (by eexists); simpl; not_elem_of_list. }
  destruct Hknown as (patientMap & patient & Hgroup & Hlookup & Hlast).
  { simpl. apply list_elem_of_here. }
  exists patientMap, patient. split; [exact Hgroup|]. split; [exact Hlookup|].
  rewrite Hlast. reflexivity.
Defined.

Lemma StronglySorted_filter {A} (R : A → A → Prop) (P : A → Prop)
    `{∀ x, Decision (P x)} (l : list A) :
  StronglySorted R l → StronglySorted R (filter P l).
Proof.
  induction 1 as [|x l Hsorted IH Hx]; [constructor|].
  rewrite filter_cons. destruct (decide (P x)); [|done].
  constructor; [done|].
  apply Forall_forall. intros y [_ Hy]%list_elem_of_filter.
  rewrite Forall_forall in Hx. by apply Hx.
Qed.

(** The sort leaves a history that is in descending order as it is. *)
Lemma sort_sorted_id (Date_parse : string → option Z) (l : list HistoryEntry) :
  StronglySorted (notBefore Date_parse) l → sort (byDateDescending Date_parse) l = l.
Proof.
  induction 1 as [|x l Hsorted IH Hx]; [done|].
  unfold sort in *. cbn [foldr]. rewrite IH.
  destruct l as [|y l]; [done|]. cbn [sortInsert].
  apply Forall_inv in Hx. destruct Hx as (tx & ty & Hpx & Hpy & Hle).
  unfold sortsBefore, byDateDescending. rewrite Hpx, Hpy. simpl.
  by destruct (Z.ltb_spec (tx - ty) 0); [lia|].
Qed.

(** X20: when the response is in the order the query asks for, descending
    by date, the history of every patient lists the prescriptions of the
    patient in the order of the response: the sort changes nothing. *)
Theorem sorted_response_keeps_order (Date_parse : string → option Z)
    (prescriptions : list Prescription) (st : ScreenState) (patient : Patient) :
  Forall wellFormed prescriptions →
  StronglySorted (issuedNotBefore Date_parse) prescriptions →
  patient ∈ patients (fetchPatientsWithPrescriptions Date_parse
                        (ResponseData prescriptions) st) →
  pt_history patient
  = historyEntryOf <$> prescriptionsOf (pt_id patient) prescriptions.
Proof.
  intros Hwf Hsorted Hin.
  destruct (roster_of_wellFormed Date_parse prescriptions st Hwf)
    as (patientMap & Hgroup & Hgrouped & Hroster).
  rewrite Hroster in Hin. unfold patientsArrayOf in Hin.
  apply list_elem_of_fmap in Hin as (p & -> & Hin).
  apply list_elem_of_fmap in Hin as ([patientId p'] & -> & Hin).
  apply elem_of_map_to_list in Hin. simpl.
  specialize (Hgrouped patientId). rewrite Hin in Hgrouped.
  destruct Hgrouped as (-> & Hhist & _). rewrite Hhist.
  apply sort_sorted_id.
  apply (StronglySorted_fmap _ (issuedNotBefore Date_parse)); [done|].
  by apply StronglySorted_filter.
Qed.

Lemma sorted_response_keeps_order_witness :
  ∃ patient,
    patient ∈ patients (fetchPatientsWithPrescriptions Samples.parse
                          (ResponseData
                             [Samples.prescription "rx3" "patient-1" "2025-09-05T10:00:00Z";
                              Samples.prescription "rx1" "patient-1" "2025-09-01T10:00:00Z"])
                          Samples.emptyScreen) ∧
    he_id <$> pt_history patient = ["rx3"; "rx1"].
Proof.
  set (response := [Samples.prescription "rx3" "patient-1" "2025-09-05T10:00:00Z";
                    Samples.prescription "rx1" "patient-1" "2025-09-01T10:00:00Z"]).
  assert (Hwf : Forall wellFormed response).
  { repeat constructor; try (by eexists); simpl; not_elem_of_list. }
  assert (Hin : "patient-1"
                  ∈ pt_id <$> patients (fetchPatientsWithPrescriptions Samples.parse
                                          (ResponseData response) Samples.emptyScreen)).
  { apply (roster_ids Samples.parse response Samples.emptyScreen Hwf).
    vm_compute. apply list_elem_of_here. }
  apply list_elem_of_fmap in Hin as (patient & Hid & Hin).
  exists patient. split; [exact Hin|].
  rewrite (sorted_response_keeps_order Samples.parse response Samples.emptyScreen
             patient Hwf); [by rewrite <- Hid | | exact Hin].
  repeat constructor. exists 1757066400000%Z, 1756720800000%Z.
  repeat split. lia.
Defined.

End RosterFacts.

(** ** The side menu *)

Module SideMenuFacts.
Import SideMenu.

Lemma length_filter_or {A} (P Q : A → Prop) `{∀ x, Decision (P x)}
    `{∀ x, Decision (Q x)} (l : list A) :
  length (filter (λ x, P x ∨ Q x) l) ≤ length (filter P l) + length (filter Q l).
Proof.
  induction l as [|x l IH]; [done|]. rewrite !filter_cons.
  destruct (decide (P x)), (decide (Q x)), (decide (P x ∨ Q x)); simpl; try lia; tauto.
Qed.

(** X21: whatever the current path and the active item are, the menu
    highlights the item whose id is the active item, the item whose route is
    the current path, and no other: two items at most, and two when path and
    active item point at different items. *)
Theorem menu_highlights (pathname activeItem : string) :
  let highlighted := filter (λ item, isActive pathname activeItem item = true) menuItems in
  length highlighted ≤ 2 ∧
  (∀ item, item ∈ menuItems → id item = activeItem → item ∈ highlighted) ∧
  (∀ item, item ∈ menuItems → route item = pathname → item ∈ highlighted) ∧
  (∀ item, item ∈ highlighted → id item = activeItem ∨ route item = pathname).
Proof.
  intros highlighted. split; [|split; [|split]].
  - subst highlighted.
    pose proof (length_filter_or (λ item, pathname = route item)
                  (λ item, activeItem = id item) menuItems) as Hor.
    assert (Hroutes : length (filter (λ item, pathname = route item) menuItems) ≤ 1).
    { unfold menuItems. rewrite !filter_cons, filter_nil. cbn [route].
      repeat match goal with
             | |- context [decide (?a = ?b)] =>
                 destruct (decide (a = b)); try subst; try done
             end; simpl; lia. }
    assert (Hids : length (filter (λ item, activeItem = id item) menuItems) ≤ 1).
    { unfold menuItems. rewrite !filter_cons, filter_nil. cbn [id].
      repeat match goal with
             | |- context [decide (?a = ?b)] =>
                 destruct (decide (a = b)); try subst; try done
             end; simpl; lia. }
    etrans; [|exact (Nat.add_le_mono _ _ _ _ Hroutes Hids)].
    etrans; [|exact Hor]. apply Nat.eq_le_incl. f_equal.
    apply list_filter_iff. intros item. unfold isActive.
    rewrite orb_true_iff, !bool_decide_eq_true. done.
  - intros item Hin Hid. subst highlighted. apply list_elem_of_filter.
    split; [|done]. unfold isActive.
    rewrite (bool_decide_eq_true_2 (activeItem = id item)) by done.
    apply orb_true_r.
  - intros item Hin Hroute. subst highlighted. apply list_elem_of_filter.
    split; [|done]. unfold isActive.
    by rewrite (bool_decide_eq_true_2 (pathname = route item)).
  - intros item [Hactive _]%list_elem_of_filter. unfold isActive in Hactive.
    apply orb_true_iff in Hactive as [H|H]; apply bool_decide_eq_true in H; auto.
Qed.

(** On the page "About Us" with the profile as active item, two items are
    highlighted. *)
Example two_items_highlighted :
  label <$> filter (λ item, isActive "/about" "profile" item = true) menuItems
  = ["Profile"; "About Us"].
Proof. reflexivity. Qed.

End SideMenuFacts.
